(** * Swap utilities of the wallet: a shallow embedding and its properties

    The development follows [src/features/transactions/swap/utils.ts].
    JavaScript values are modelled as the code uses them:
    - a [number] is an IEEE-754 binary64 value (Rocq's primitive [float]);
    - a big integer ([JSBI], ethers' [BigNumber]) is a [Z];
    - an optional value ([undefined], [null]) is an [option];
    - a call that may throw returns a [Completion], normal or abrupt. *)

From Stdlib Require Import ZArith QArith Qround Lia Lqa Bool List.
From Stdlib Require Import Ascii String.
From Stdlib Require Import DecimalString DecimalPos DecimalZ.
From Stdlib Require Import PrimFloat SpecFloat FloatOps.

Import ListNotations.

#[local] Open Scope string_scope.
#[local] Open Scope Z_scope.

(** How an evaluation completes: normally with a value, or abruptly with
    an exception (which one is not recorded). *)
Inductive Completion (A : Type) :=
| Normal (a : A)
| Throw.
Arguments Normal {A} a.
Arguments Throw {A}.

(** Sequencing of calls that may throw. *)
Notation "x <- c ;; k" :=
  (match c with Normal x => k | Throw => Throw end)
  (at level 61, c at next level, right associativity).

(** ** JavaScript numbers, strings and truthiness *)

Module JS.

Definition Number := float.

(** The exact rational value of a finite number; [None] for [NaN] and
    the two infinities. *)
Definition Number_value (n : Number) : option Q :=
  match Prim2SF n with
  | S754_zero _ => Some 0%Q
  | S754_finite s m e =>
      let sm := if s then Z.neg m else Z.pos m in
      Some (if 0 <=? e then inject_Z (sm * 2 ^ e)
            else Qmake sm (2 ^ Z.to_pos (- e)))
  | S754_infinity _ | S754_nan => None
  end.

Definition Number_isFinite (n : Number) : bool :=
  match Prim2SF n with
  | S754_zero _ | S754_finite _ _ _ => true
  | S754_infinity _ | S754_nan => false
  end.

(** The result of [Math.round]: a number with an integral value (kept as
    that integer, both zeros being [0]), or the non-finite argument
    returned as it is. *)
Inductive Rounded :=
| RoundedNaN
| RoundedInfinity (negative : bool)
| RoundedInteger (z : Z).

(** [Math.round]: an integral argument is returned unchanged; otherwise
    the nearest integer, the one closer to plus infinity on a tie.  The
    argument is [m / 2^k] up to sign: [q] is its integer part and [r] the
    remainder that decides the direction. *)
Definition Math_round (n : Number) : Rounded :=
  match Prim2SF n with
  | S754_nan => RoundedNaN
  | S754_infinity s => RoundedInfinity s
  | S754_zero _ => RoundedInteger 0
  | S754_finite s m e =>
      if 0 <=? e then RoundedInteger ((if s then Z.neg m else Z.pos m) * 2 ^ e)
      else
        let d := Z.pos (2 ^ Z.to_pos (- e)) in
        let q := Z.pos m / d in
        let r := Z.pos m mod d in
        if s then RoundedInteger (if d <? 2 * r then - (q + 1) else - q)
        else RoundedInteger (if d <=? 2 * r then q + 1 else q)
  end.

(** Truthiness of [string | undefined]: [undefined] and the empty string
    are falsy. *)
Definition truthy (s : option string) : bool :=
  match s with
  | Some s' => negb (String.eqb s' "")
  | None => false
  end.

(** [a || b] on [string | undefined]. *)
Definition or_else (a b : option string) : option string :=
  if truthy a then a else b.

(** A value interpolated in a template literal: [undefined] prints as
    the word. *)
Definition interpolate (s : option string) : string :=
  match s with
  | Some s' => s'
  | None => "undefined"
  end.

(** Optional chaining [o?.f]. *)
Definition chain {A B : Type} (o : option A) (f : A -> option B) : option B :=
  match o with
  | Some a => f a
  | None => None
  end.

(** Strict equality [===] on [string | undefined]. *)
Definition strict_eq (a b : option string) : bool :=
  match a, b with
  | Some x, Some y => String.eqb x y
  | None, None => true
  | _, _ => false
  end.

(** The characters [encodeURIComponent] leaves as they are: letters,
    digits and [- _ . ! ~ * ' ( )]. *)
Definition unreserved (c : ascii) : bool :=
  let n := N_of_ascii c in
  (((65 <=? n) && (n <=? 90)) || ((97 <=? n) && (n <=? 122))
   || ((48 <=? n) && (n <=? 57))
   || (n =? 45) || (n =? 95) || (n =? 46) || (n =? 33) || (n =? 126)
   || (n =? 42) || (n =? 39) || (n =? 40) || (n =? 41))%N.

(** The upper-case hexadecimal digit of a value below sixteen. *)
Definition hexDigitUpper (d : N) : ascii :=
  ascii_of_N (if (d <? 10)%N then 48 + d else 55 + d)%N.

(** [%XX] for one octet. *)
Definition percentEncode (c : ascii) : string :=
  let n := N_of_ascii c in
  String "%" (String (hexDigitUpper (n / 16)) (String (hexDigitUpper (n mod 16))
    EmptyString)).

(** [encodeURIComponent] of a string.  A string stands for its UTF-8
    octets (a string with a lone surrogate, on which the function throws,
    has none): an unreserved character is kept, every other octet is
    escaped. *)
Fixpoint encodeURIComponent (s : string) : string :=
  match s with
  | EmptyString => EmptyString
  | String c s' =>
      (if unreserved c then String c EmptyString else percentEncode c)
      ++ encodeURIComponent s'
  end.

(** [Array.prototype.join] on an array of strings. *)
Definition join (separator : string) (items : list string) : string :=
  String.concat separator items.

End JS.

(** ** Big integers *)

Module JSBI.

(** [JSBI.BigInt(number)] throws a [RangeError] unless the number is
    finite and integral. *)
Definition BigInt (n : JS.Rounded) : Completion Z :=
  match n with
  | JS.RoundedInteger z => Normal z
  | JS.RoundedNaN | JS.RoundedInfinity _ => Throw
  end.

(** [JSBI.divide] truncates toward zero and throws on a zero divisor. *)
Definition divide (a b : Z) : Completion Z :=
  if b =? 0 then Throw else Normal (Z.quot a b).

(** [toString()]: the decimal digits, with a leading minus sign for a
    negative value. *)
Definition toString (z : Z) : string :=
  NilZero.string_of_int (Z.to_int z).

(** The integer a decimal string denotes, when it is one. *)
Definition ofString (s : string) : option Z :=
  option_map Z.of_int (NilZero.int_of_string s).

Definition MaxUint256 : Z := 2 ^ 256 - 1.

End JSBI.


(** ** The external libraries the module imports

    [@uniswap/sdk-core], [@uniswap/router-sdk] and [ethers] are not part of
    the sources.  Their values are modelled as records, and the few
    operations the swap utilities call follow the behaviour the spec
    attributes to them. *)

Module Ethers.

Definition hex_digit (c : ascii) : option Z :=
  let n := Z.of_N (N_of_ascii c) in
  if (48 <=? n) && (n <=? 57) then Some (n - 48)
  else if (97 <=? n) && (n <=? 102) then Some (n - 87)
  else if (65 <=? n) && (n <=? 70) then Some (n - 55)
  else None.

Fixpoint hex_value (acc : Z) (s : string) : option Z :=
  match s with
  | EmptyString => Some acc
  | String c s' =>
      match hex_digit c with
      | Some d => hex_value (16 * acc + d) s'
      | None => None
      end
  end.

(** The digits after a [0x] or [0X] prefix, at least one. *)
Definition hex_magnitude (s : string) : option Z :=
  match s with
  | String z (String x (String c s')) =>
      if Ascii.eqb z "0" && (Ascii.eqb x "x" || Ascii.eqb x "X")
      then hex_value 0 (String c s')
      else None
  | _ => None
  end.

(** A string of the form [-?0x[0-9a-f]+], letter case ignored. *)
Definition ofHexString (s : string) : option Z :=
  match s with
  | String c s' =>
      if Ascii.eqb c "-" then option_map Z.opp (hex_magnitude s')
      else hex_magnitude s
  | EmptyString => None
  end.

(** Modelled from the spec: [BigNumber.from] of the ethers library, which
    the sources only import.  The spec has it read a decimal-integer string
    as an arbitrary-precision integer and raise on a malformed numeric
    string, and on [undefined].  The library also reads a [0x]-prefixed
    hexadecimal string; of such a string the model keeps the integer it
    writes, not its text, which is exact for the strings
    [BigNumber_toHexString] prints. *)
Definition BigNumber_from (v : option string) : Completion Z :=
  match v with
  | None => Throw
  | Some s =>
      match ofHexString s with
      | Some z => Normal z
      | None =>
          match JSBI.ofString s with
          | Some z => Normal z
          | None => Throw
          end
      end
  end.

(** [a.add(b)]: the argument is converted with [BigNumber.from]. *)
Definition BigNumber_add (a : Z) (b : option string) : Completion Z :=
  b' <- BigNumber_from b ;; Normal (a + b').

Definition BigNumber_toString (a : Z) : string := JSBI.toString a.

(** The values [BigNumber.from] takes: a string, a number, a big integer,
    a [BigNumber], or an array of octets. *)
Inductive BigNumberish :=
| OfString (s : string)
| OfNumber (n : JS.Number)
| OfBigInt (z : Z)
| OfBigNumber (z : Z)
| OfBytes (octets : list Z).

Definition MAX_SAFE : Z := 9007199254740991.

(** The value of an array of octets, the first one the most significant. *)
Fixpoint bytes_value (acc : Z) (octets : list Z) : option Z :=
  match octets with
  | [] => Some acc
  | b :: rest =>
      if (0 <=? b) && (b <? 256) then bytes_value (256 * acc + b) rest
      else None
  end.

(** Modelled from the spec: [BigNumber.from] on every kind of argument.
    A number has to be an integer strictly between [-MAX_SAFE] and
    [MAX_SAFE]; an array has to hold at least one octet, and octets only. *)
Definition BigNumber_from_value (v : BigNumberish) : Completion Z :=
  match v with
  | OfString s => BigNumber_from (Some s)
  | OfNumber n =>
      match JS.Number_value n with
      | Some x =>
          let z := Qfloor x in
          if Qeq_bool (inject_Z z) x && (- MAX_SAFE <? z) && (z <? MAX_SAFE)
          then Normal z else Throw
      | None => Throw
      end
  | OfBigInt z | OfBigNumber z => Normal z
  | OfBytes [] => Throw
  | OfBytes octets =>
      match bytes_value 0 octets with
      | Some z => Normal z
      | None => Throw
      end
  end.

(** The lower-case hexadecimal digit of a value below sixteen. *)
Definition hexDigitLower (d : Z) : ascii :=
  ascii_of_N (Z.to_N (if d <? 10 then 48 + d else 87 + d)).

(** The hexadecimal digits of a non-negative integer, most significant
    first, in front of [acc]; [fuel] bounds their number. *)
Fixpoint hexDigits (fuel : nat) (n : Z) (acc : string) : string :=
  match fuel with
  | O => acc
  | S fuel' =>
      let acc' := String (hexDigitLower (n mod 16)) acc in
      if n / 16 =? 0 then acc' else hexDigits fuel' (n / 16) acc'
  end.

(** Modelled from the spec: [toHexString] of a [BigNumber]: [0x] and an
    even number of lower-case hexadecimal digits, after a minus sign for a
    negative value; zero is [0x00]. *)
Definition BigNumber_toHexString (z : Z) : string :=
  let digits := hexDigits (S (Z.to_nat (Z.log2 (Z.abs z)))) (Z.abs z) "" in
  let padded :=
    if Nat.even (String.length digits) then digits else String "0" digits in
  (if z <? 0 then "-0x" else "0x") ++ padded.

End Ethers.

Module SDK.

Inductive TradeType := EXACT_INPUT | EXACT_OUTPUT.

Definition TradeType_eqb (a b : TradeType) : bool :=
  match a, b with
  | EXACT_INPUT, EXACT_INPUT | EXACT_OUTPUT, EXACT_OUTPUT => true
  | _, _ => false
  end.

Record Token := mkToken {
  token_chainId : Z;
  token_address : string;
  token_symbol : option string
}.

(** [Currency = NativeCurrency | Token].  A native currency carries the
    token its [wrapped] getter answers; a token is its own [wrapped]. *)
Inductive Currency :=
| NativeCurrency (chain : Z) (sym : option string) (wrapped_token : Token)
| TokenCurrency (t : Token).

Definition chainId (c : Currency) : Z :=
  match c with
  | NativeCurrency chain _ _ => chain
  | TokenCurrency t => token_chainId t
  end.

Definition isNative (c : Currency) : bool :=
  match c with
  | NativeCurrency _ _ _ => true
  | TokenCurrency _ => false
  end.

Definition symbol (c : Currency) : option string :=
  match c with
  | NativeCurrency _ sym _ => sym
  | TokenCurrency t => token_symbol t
  end.

Definition wrapped (c : Currency) : Token :=
  match c with
  | NativeCurrency _ _ w => w
  | TokenCurrency t => t
  end.

(** [Fraction]: a numerator and a denominator, never reduced. *)
Record Fraction := mkFraction {
  numerator : Z;
  denominator : Z
}.

(** [Percent] extends [Fraction] without adding a field. *)
Definition Percent := Fraction.

Definition Fraction_of (z : Z) : Fraction := mkFraction z 1.

Definition Fraction_add (a b : Fraction) : Fraction :=
  if denominator a =? denominator b
  then mkFraction (numerator a + numerator b) (denominator a)
  else mkFraction (numerator a * denominator b + numerator b * denominator a)
                  (denominator a * denominator b).

Definition Fraction_invert (a : Fraction) : Fraction :=
  mkFraction (denominator a) (numerator a).

Definition Fraction_multiply (a b : Fraction) : Fraction :=
  mkFraction (numerator a * numerator b) (denominator a * denominator b).

Definition Fraction_lessThan (a b : Fraction) : bool :=
  numerator a * denominator b <? numerator b * denominator a.

Definition Fraction_quotient (a : Fraction) : Completion Z :=
  JSBI.divide (numerator a) (denominator a).

Record CurrencyAmount := mkCurrencyAmount {
  currency : Currency;
  amount : Fraction
}.

Definition quotient (a : CurrencyAmount) : Completion Z :=
  Fraction_quotient (amount a).

(** [CurrencyAmount.fromRawAmount]: the constructor refuses a quotient
    above [MaxUint256]. *)
Definition fromRawAmount (c : Currency) (raw : Z)
  : Completion CurrencyAmount :=
  if raw <=? JSBI.MaxUint256 then Normal (mkCurrencyAmount c (Fraction_of raw))
  else Throw.

(** [Price]: how many units of the quote currency one unit of the base
    currency is worth, as the fraction [numerator / denominator]. *)
Record Price := mkPrice {
  baseCurrency : Currency;
  quoteCurrency : Currency;
  price_value : Fraction
}.

(** [invert] exchanges the two currencies and the two parts of the
    fraction. *)
Definition Price_invert (p : Price) : Price :=
  mkPrice (quoteCurrency p) (baseCurrency p) (Fraction_invert (price_value p)).

Record MethodParameters := mkMethodParameters {
  calldata : string;
  value : string
}.

End SDK.

(** ** The application's own types the module imports *)

Module App.

Import SDK.

(** [WrapType] of [wrapSaga]. *)
Inductive WrapType := NotApplicable | Wrap | Unwrap.

(** [TransactionType]: the only member the module uses. *)
Inductive TransactionType := Swap.

Definition CurrencyId := string.

(** The quote a trade was built from; its method parameters may be
    missing. *)
Record TradeQuoteResult := mkQuote {
  methodParameters : option MethodParameters
}.

(** [Trade] of [useTrade]: the router SDK's trade together with the
    quote and the slippage tolerance it was requested with. *)
Record Trade := mkTrade {
  tradeType : TradeType;
  inputAmount : CurrencyAmount;
  outputAmount : CurrencyAmount;
  executionPrice : Price;
  slippageTolerance : JS.Number;
  quote : option TradeQuoteResult
}.

(** Modelled from the spec: [Trade.minimumAmountOut] of the router SDK,
    which the sources only call.  The spec describes a percent-based
    minimum bound under the slippage tolerance: a negative tolerance is
    refused, an exact-output trade keeps its output amount, and an
    exact-input trade gets [quotient * 1 / (1 + tolerance)], truncated. *)
Definition minimumAmountOut (t : Trade) (tolerance : Percent)
  : Completion CurrencyAmount :=
  if Fraction_lessThan tolerance (Fraction_of 0) then Throw
  else match tradeType t with
       | EXACT_OUTPUT => Normal (outputAmount t)
       | EXACT_INPUT =>
           q <- quotient (outputAmount t) ;;
           adjusted <- Fraction_quotient
                         (Fraction_multiply
                            (Fraction_invert (Fraction_add (Fraction_of 1) tolerance))
                            (Fraction_of q)) ;;
           fromRawAmount (currency (outputAmount t)) adjusted
       end.

(** Modelled from the spec: [Trade.maximumAmountIn] of the router SDK,
    which the sources only call.  The spec describes a percent-based
    maximum bound: a negative tolerance is refused, an exact-input trade
    keeps its input amount, and an exact-output trade gets
    [quotient * (1 + tolerance)], truncated. *)
Definition maximumAmountIn (t : Trade) (tolerance : Percent)
  : Completion CurrencyAmount :=
  if Fraction_lessThan tolerance (Fraction_of 0) then Throw
  else match tradeType t with
       | EXACT_INPUT => Normal (inputAmount t)
       | EXACT_OUTPUT =>
           q <- quotient (inputAmount t) ;;
           adjusted <- Fraction_quotient
                         (Fraction_multiply
                            (Fraction_add (Fraction_of 1) tolerance)
                            (Fraction_of q)) ;;
           fromRawAmount (currency (inputAmount t)) adjusted
       end.

Record ExactInputSwapTransactionInfo := mkExactInputInfo {
  in_type : TransactionType;
  in_inputCurrencyId : CurrencyId;
  in_outputCurrencyId : CurrencyId;
  in_tradeType : TradeType;
  inputCurrencyAmountRaw : string;
  expectedOutputCurrencyAmountRaw : string;
  minimumOutputCurrencyAmountRaw : string
}.

Record ExactOutputSwapTransactionInfo := mkExactOutputInfo {
  out_type : TransactionType;
  out_inputCurrencyId : CurrencyId;
  out_outputCurrencyId : CurrencyId;
  out_tradeType : TradeType;
  outputCurrencyAmountRaw : string;
  expectedInputCurrencyAmountRaw : string;
  maximumInputCurrencyAmountRaw : string
}.

Inductive SwapTransactionInfo :=
| ExactInputInfo (info : ExactInputSwapTransactionInfo)
| ExactOutputInfo (info : ExactOutputSwapTransactionInfo).

Definition info_tradeType (i : SwapTransactionInfo) : TradeType :=
  match i with
  | ExactInputInfo r => in_tradeType r
  | ExactOutputInfo r => out_tradeType r
  end.

(** [NumberType] of [src/utils/format]: the only member the module uses. *)
Inductive NumberType := SwapPrice.

(** [PermitSignatureInfo] of [usePermit2Signature], over the permit
    message type of the permit2 SDK. *)
Record PermitSignatureInfo (PermitSingle : Type) := mkPermitSignatureInfo {
  signature : string;
  permitMessage : PermitSingle
}.
Arguments mkPermitSignatureInfo {PermitSingle}.
Arguments signature {PermitSingle}.
Arguments permitMessage {PermitSingle}.

(** The functions of [src/utils/currencyId] the module calls. *)
Class CurrencyIdUtils := {
  currencyId : Currency -> CurrencyId;
  areCurrencyIdsEqual : CurrencyId -> CurrencyId -> bool
}.

(** The table of [src/constants/tokens]: the wrapped native token of each
    chain. *)
Class Tokens := {
  WRAPPED_NATIVE_CURRENCY : Z -> Token
}.

(** [areAddressesEqual] of [src/utils/addresses]. *)
Class Addresses := {
  areAddressesEqual : option string -> option string -> bool
}.

(** [formatPrice] of [src/utils/format]. *)
Class Format := {
  formatPrice : Price -> NumberType -> string
}.


(** [AssetType] of [src/entities/assets]: the only member the module
    uses. *)
Inductive AssetType := Currency_asset.

(** [CurrencyField] of [transactionState]. *)
Inductive CurrencyField := INPUT | OUTPUT.

(** The asset a side of the swap form holds. *)
Record TradeableAsset := mkTradeableAsset {
  asset_address : string;
  asset_chainId : Z;
  asset_type : AssetType
}.

(** [TransactionState] of [transactionState], with the fields the module
    sets; the two sides are keyed by [CurrencyField]. *)
Record TransactionState := mkTransactionState {
  exactCurrencyField : CurrencyField;
  exactAmountToken : string;
  field_INPUT : option TradeableAsset;
  field_OUTPUT : option TradeableAsset
}.

(** The decoding functions of [src/utils/currencyId]; the chain of an
    identifier may be [null]. *)
Class CurrencyIdDecoding := {
  currencyIdToAddress : CurrencyId -> string;
  currencyIdToChain : CurrencyId -> option Z
}.

(** [ChainId.Mainnet] of [src/constants/chains]. *)
Class Chains := {
  Mainnet : Z
}.

(** What a query parameter holds: a string, a number or a boolean. *)
Inductive QueryValue :=
| QString (s : string)
| QNumber (n : JS.Number)
| QBoolean (b : bool).

(** [Number.prototype.toString], which [encodeURIComponent] applies to a
    number. *)
Class NumberFormat := {
  Number_toString : JS.Number -> string
}.

End App.

(** ** The router SDKs and the options they take *)

Module Router.

Import SDK App.

Section Options.

Context {PermitSingle PermitOptions : Type}.

(** [{ slippageTolerance, recipient }], the options both routers share. *)
Record BaseOptions := mkBaseOptions {
  base_slippageTolerance : Percent;
  base_recipient : string
}.

(** [{ signature, ...permitMessage }]. *)
Record Permit2Permit := mkPermit2Permit {
  permit2_signature : string;
  permit2_message : PermitSingle
}.

(** [SwapOptions] of the universal router SDK. *)
Record UniversalRouterSwapOptions := mkUniversalRouterSwapOptions {
  universal_base : BaseOptions;
  universal_inputTokenPermit : option Permit2Permit
}.

(** [SwapOptions] of the legacy router SDK. *)
Record SwapOptions := mkSwapOptions {
  legacy_base : BaseOptions;
  legacy_inputTokenPermit : option PermitOptions
}.

(** The SDK call a swap is handed to, with its arguments. *)
Inductive RouterCall :=
| UniversalSwapRouter_swapERC20CallParameters
    (trade : Trade) (options : UniversalRouterSwapOptions)
| SwapRouter_swapCallParameters (trade : Trade) (options : SwapOptions).

Record MethodParameterArgs := mkMethodParameterArgs {
  permit2Signature : option (PermitSignatureInfo PermitSingle);
  permitInfo : option PermitOptions;
  trade : Trade;
  address : string;
  universalRouterEnabled : bool
}.

End Options.

Arguments BaseOptions : clear implicits.
Arguments Permit2Permit : clear implicits.
Arguments UniversalRouterSwapOptions : clear implicits.
Arguments SwapOptions : clear implicits.
Arguments RouterCall : clear implicits.
Arguments MethodParameterArgs : clear implicits.

(** The two static methods of the router SDKs. *)
Class Routers (PermitSingle PermitOptions : Type) := {
  swapERC20CallParameters :
    Trade -> UniversalRouterSwapOptions PermitSingle ->
    Completion MethodParameters;
  swapCallParameters :
    Trade -> SwapOptions PermitOptions -> Completion MethodParameters
}.

Definition perform {PermitSingle PermitOptions : Type}
  {sdk : Routers PermitSingle PermitOptions}
  (call : RouterCall PermitSingle PermitOptions)
  : Completion MethodParameters :=
  match call with
  | UniversalSwapRouter_swapERC20CallParameters t o =>
      swapERC20CallParameters t o
  | SwapRouter_swapCallParameters t o => swapCallParameters t o
  end.

End Router.

(** ** [src/features/transactions/swap/utils.ts] *)

Module Utils.

Import SDK App Router.

Definition getWrapType {ids : CurrencyIdUtils} {tokens : Tokens}
  (inputCurrency outputCurrency : option Currency) : WrapType :=
  match inputCurrency, outputCurrency with
  | Some inputCurrency, Some outputCurrency =>
      if negb (chainId inputCurrency =? chainId outputCurrency)
      then NotApplicable
      else
        let weth := TokenCurrency (WRAPPED_NATIVE_CURRENCY (chainId inputCurrency)) in
        if isNative inputCurrency
           && areCurrencyIdsEqual (currencyId outputCurrency) (currencyId weth)
        then Wrap
        else if isNative outputCurrency
                && areCurrencyIdsEqual (currencyId inputCurrency) (currencyId weth)
        then Unwrap
        else NotApplicable
  | _, _ => NotApplicable
  end.

Definition isWrapAction (wrapType : WrapType) : bool :=
  match wrapType with
  | Unwrap | Wrap => true
  | NotApplicable => false
  end.

(** Rounds to the nearest basis point.  [new Percent] converts the rounded
    number with [JSBI.BigInt]. *)
Definition slippageToleranceToPercent (slippage : JS.Number)
  : Completion Percent :=
  let basisPoints := JS.Math_round (PrimFloat.mul slippage 100%float) in
  numerator <- JSBI.BigInt basisPoints ;;
  Normal (mkFraction numerator 10000).

Definition tradeToTransactionInfo {ids : CurrencyIdUtils} (trade : Trade)
  : Completion SwapTransactionInfo :=
  slippageTolerance <- slippageToleranceToPercent (slippageTolerance trade) ;;
  if TradeType_eqb (tradeType trade) EXACT_INPUT
  then
    inputRaw <- quotient (inputAmount trade) ;;
    expectedOutputRaw <- quotient (outputAmount trade) ;;
    minimumOut <- minimumAmountOut trade slippageTolerance ;;
    minimumOutputRaw <- quotient minimumOut ;;
    Normal (ExactInputInfo {|
      in_type := Swap;
      in_inputCurrencyId := currencyId (currency (inputAmount trade));
      in_outputCurrencyId := currencyId (currency (outputAmount trade));
      in_tradeType := EXACT_INPUT;
      inputCurrencyAmountRaw := JSBI.toString inputRaw;
      expectedOutputCurrencyAmountRaw := JSBI.toString expectedOutputRaw;
      minimumOutputCurrencyAmountRaw := JSBI.toString minimumOutputRaw
    |})
  else
    outputRaw <- quotient (outputAmount trade) ;;
    expectedInputRaw <- quotient (inputAmount trade) ;;
    maximumIn <- maximumAmountIn trade slippageTolerance ;;
    maximumInputRaw <- quotient maximumIn ;;
    Normal (ExactOutputInfo {|
      out_type := Swap;
      out_inputCurrencyId := currencyId (currency (inputAmount trade));
      out_outputCurrencyId := currencyId (currency (outputAmount trade));
      out_tradeType := EXACT_OUTPUT;
      outputCurrencyAmountRaw := JSBI.toString outputRaw;
      expectedInputCurrencyAmountRaw := JSBI.toString expectedInputRaw;
      maximumInputCurrencyAmountRaw := JSBI.toString maximumInputRaw
    |}).

(** [trade?.quote?.methodParameters?.calldata]. *)
Definition quoteCalldata (trade : option Trade) : option string :=
  JS.chain trade (fun t =>
  JS.chain (quote t) (fun q =>
  JS.chain (methodParameters q) (fun p => Some (calldata p)))).

Definition requireAcceptNewTrade (oldTrade newTrade : option Trade) : bool :=
  negb (JS.strict_eq (quoteCalldata oldTrade) (quoteCalldata newTrade)).

Definition getRateToDisplay {fmt : Format} (trade : Trade)
  (showInverseRate : bool) : string :=
  let price :=
    if showInverseRate then Price_invert (executionPrice trade)
    else executionPrice trade in
  let formattedPrice := formatPrice price SwapPrice in
  let quoteCurrency := quoteCurrency (executionPrice trade) in
  let baseCurrency := baseCurrency (executionPrice trade) in
  let rate :=
    "1 " ++ JS.interpolate (symbol quoteCurrency) ++ " = " ++ formattedPrice
         ++ " " ++ JS.interpolate (symbol baseCurrency) in
  let inverseRate :=
    "1 " ++ JS.interpolate (symbol baseCurrency) ++ " = " ++ formattedPrice
         ++ " " ++ JS.interpolate (symbol quoteCurrency) in
  if showInverseRate then rate else inverseRate.

Definition sumGasFees (gasFee1 gasFee2 : option string)
  : Completion (option string) :=
  if negb (JS.truthy gasFee1) || negb (JS.truthy gasFee2)
  then Normal (JS.or_else gasFee1 gasFee2)
  else
    fee1 <- Ethers.BigNumber_from gasFee1 ;;
    total <- Ethers.BigNumber_add fee1 gasFee2 ;;
    Normal (Some (Ethers.BigNumber_toString total)).

Definition clearStaleTrades {addresses : Addresses} (trade : Trade)
  (currencyIn currencyOut : option Currency) : option Trade :=
  let currencyInAddress :=
    JS.chain currencyIn (fun c => Some (token_address (wrapped c))) in
  let currencyOutAddress :=
    JS.chain currencyOut (fun c => Some (token_address (wrapped c))) in
  let inputsMatch :=
    JS.truthy currencyInAddress
    && areAddressesEqual currencyInAddress
         (Some (token_address (wrapped (currency (inputAmount trade))))) in
  let outputsMatch :=
    JS.truthy currencyOutAddress
    && areAddressesEqual currencyOutAddress
         (Some (token_address (wrapped (currency (outputAmount trade))))) in
  if inputsMatch && outputsMatch then Some trade else None.

Section SwapMethodParameters.

Context {PermitSingle PermitOptions : Type}.

(** The SDK call [getSwapMethodParameters] ends in, with the options it
    builds for it. *)
Definition swapRouterCall (args : MethodParameterArgs PermitSingle PermitOptions)
  : Completion (RouterCall PermitSingle PermitOptions) :=
  slippageTolerancePercent <-
    slippageToleranceToPercent (slippageTolerance (trade args)) ;;
  let baseOptions := mkBaseOptions slippageTolerancePercent (address args) in
  if universalRouterEnabled args
     || match permit2Signature args with Some _ => true | None => false end
  then
    let universalRouterSwapOptions :=
      match permit2Signature args with
      | Some permit2Signature =>
          mkUniversalRouterSwapOptions baseOptions
            (Some (mkPermit2Permit (signature permit2Signature)
                                   (permitMessage permit2Signature)))
      | None => mkUniversalRouterSwapOptions baseOptions None
      end in
    Normal (UniversalSwapRouter_swapERC20CallParameters
              (trade args) universalRouterSwapOptions)
  else
    let swapOptions :=
      match permitInfo args with
      | Some permitInfo => mkSwapOptions baseOptions (Some permitInfo)
      | None => mkSwapOptions baseOptions None
      end in
    Normal (SwapRouter_swapCallParameters (trade args) swapOptions).

Definition getSwapMethodParameters
  {sdk : Routers PermitSingle PermitOptions}
  (args : MethodParameterArgs PermitSingle PermitOptions)
  : Completion MethodParameters :=
  call <- swapRouterCall args ;; perform call.

End SwapMethodParameters.

(** [ToString] of the argument of [encodeURIComponent]. *)
Definition queryValueToString {numbers : NumberFormat} (value : QueryValue)
  : string :=
  match value with
  | QString s => s
  | QNumber n => Number_toString n
  | QBoolean true => "true"
  | QBoolean false => "false"
  end.

(** [params] are the entries of the record, in the order [Object.entries]
    lists them. *)
Definition serializeQueryParams {numbers : NumberFormat}
  (params : list (string * QueryValue)) : string :=
  let queryString :=
    fold_left
      (fun queryString entry =>
         let '(param, value) := entry in
         app queryString
           [JS.encodeURIComponent param ++ "="
            ++ JS.encodeURIComponent (queryValueToString value)])
      params [] in
  JS.join "&" queryString.

Definition formatAsHexString (input : option Ethers.BigNumberish)
  : Completion (option string) :=
  match input with
  | Some value =>
      number <- Ethers.BigNumber_from_value value ;;
      Normal (Some (Ethers.BigNumber_toHexString number))
  | None => Normal None
  end.



Definition prepareSwapFormState {decoding : CurrencyIdDecoding}
  {chains : Chains} (inputCurrencyId : option CurrencyId)
  : option TransactionState :=
  if JS.truthy inputCurrencyId
  then
    match inputCurrencyId with
    | Some inputCurrencyId =>
        Some {|
          exactCurrencyField := INPUT;
          exactAmountToken := "";
          field_INPUT := Some {|
            asset_address := currencyIdToAddress inputCurrencyId;
            asset_chainId :=
              match currencyIdToChain inputCurrencyId with
              | Some chain => chain
              | None => Mainnet
              end;
            asset_type := Currency_asset
          |};
          field_OUTPUT := None
        |}
    | None => None
    end
  else None.

End Utils.

(** ** Sample collaborators

    One implementation of each interface the module imports, and a few
    currencies and trades, to run the functions on. *)

Module Sample.

Import SDK App Router.

Definition lower_char (c : ascii) : ascii :=
  let n := N_of_ascii c in
  if ((65 <=? n) && (n <=? 90))%N then ascii_of_N (n + 32) else c.

Fixpoint toLowerCase (s : string) : string :=
  match s with
  | EmptyString => EmptyString
  | String c s' => String (lower_char c) (toLowerCase s')
  end.

(** The placeholder address that stands for a native asset in a currency
    identifier. *)
Definition NATIVE_ADDRESS : string :=
  "0xEeeeeEeeeEeEeeEeEeEeeEEEeeeeEeeeeeeeEEeE".

Definition WETH_ADDRESS : string :=
  "0xC02aaA39b223FE8D0A0e5C4F27eAD9083C756Cc2".

Definition DAI_ADDRESS : string :=
  "0x6B175474E89094C44Da98b954EedeAC495271d0F".

(** A currency identifier is the chain id and the address, joined by a
    dash; identifiers are compared without regard to letter case. *)
#[export] Instance ids : CurrencyIdUtils := {
  currencyId c :=
    JSBI.toString (chainId c) ++ "-"
    ++ (if isNative c then NATIVE_ADDRESS else token_address (wrapped c));
  areCurrencyIdsEqual id1 id2 :=
    String.eqb (toLowerCase id1) (toLowerCase id2)
}.

#[export] Instance tokens : Tokens := {
  WRAPPED_NATIVE_CURRENCY chain := mkToken chain WETH_ADDRESS (Some "WETH")
}.

(** Two present addresses are equal when they agree up to letter case. *)
#[export] Instance addresses : Addresses := {
  areAddressesEqual a1 a2 :=
    match a1, a2 with
    | Some x, Some y => String.eqb (toLowerCase x) (toLowerCase y)
    | _, _ => false
    end
}.

(** A price printed as its numerator over its denominator. *)
#[export] Instance format : Format := {
  formatPrice p _ :=
    JSBI.toString (numerator (price_value p)) ++ "/"
    ++ JSBI.toString (denominator (price_value p))
}.

(** Routers that answer with a fixed selector each. *)
#[export] Instance routers : Routers string string := {
  swapERC20CallParameters _ _ :=
    Normal (mkMethodParameters "0x3593564c" "0x00");
  swapCallParameters _ _ :=
    Normal (mkMethodParameters "0x5ae401dc" "0x00")
}.

Definition WETH : Currency := TokenCurrency (WRAPPED_NATIVE_CURRENCY 1).

Definition DAI : Currency :=
  TokenCurrency (mkToken 1 DAI_ADDRESS (Some "DAI")).

Definition ETH : Currency :=
  NativeCurrency 1 (Some "ETH") (WRAPPED_NATIVE_CURRENCY 1).

(** One ether for two thousand dai, at the given slippage tolerance. *)
Definition ethForDai (type : TradeType) (slippage : JS.Number)
  (data : option string) : Trade := {|
  tradeType := type;
  inputAmount := mkCurrencyAmount ETH (Fraction_of 1000000000000000000);
  outputAmount := mkCurrencyAmount DAI (Fraction_of 2000000000000000000000);
  executionPrice :=
    mkPrice ETH DAI
      (mkFraction 2000000000000000000000 1000000000000000000);
  slippageTolerance := slippage;
  quote :=
    Some (mkQuote (option_map (fun d => mkMethodParameters d "0x00") data))
|}.

(** The part of an identifier before its first dash, and the part after
    it. *)
Fixpoint splitAtDash (s : string) : string * option string :=
  match s with
  | EmptyString => (EmptyString, None)
  | String c s' =>
      if Ascii.eqb c "-" then (EmptyString, Some s')
      else let '(before, after) := splitAtDash s' in (String c before, after)
  end.

(** An identifier is read back as the chain before the dash and the
    address after it. *)
#[export] Instance decoding : CurrencyIdDecoding := {
  currencyIdToAddress id :=
    match snd (splitAtDash id) with
    | Some address => address
    | None => EmptyString
    end;
  currencyIdToChain id := JSBI.ofString (fst (splitAtDash id))
}.

#[export] Instance chains : Chains := {
  Mainnet := 1
}.

(** A stand-in for the printing of numbers: the decimal digits of the
    value rounded to an integer, and [NaN] for what has no value. *)
#[export] Instance numbers : NumberFormat := {
  Number_toString n :=
    match JS.Number_value n with
    | Some x => JSBI.toString (Qfloor x)
    | None => "NaN"
    end
}.

End Sample.

(** ** Notions the properties are stated with *)

Module Spec.

Import SDK App.

(** A string is the decimal writing of an integer: it reads as that
    integer, and it is what printing the integer gives. *)
Definition decimal_of (s : string) (z : Z) : Prop :=
  JSBI.ofString s = Some z /\ JSBI.toString z = s.

(** A token amount is not negative. *)
Definition nonnegative (a : CurrencyAmount) : Prop :=
  0 <= numerator (amount a) /\ 0 < denominator (amount a).

(** A currency is identified with the wrapped native token of its own
    chain. *)
Definition isWrappedNative {ids : CurrencyIdUtils} {tokens : Tokens}
  (c : Currency) : bool :=
  areCurrencyIdsEqual (currencyId c)
    (currencyId (TokenCurrency (WRAPPED_NATIVE_CURRENCY (chainId c)))).

(** Both currencies are present and on one chain, the first is the native
    asset and the second the wrapped native token. *)
Definition wrapPair {ids : CurrencyIdUtils} {tokens : Tokens}
  (native wrappedNative : option Currency) : Prop :=
  exists n w,
    native = Some n /\ wrappedNative = Some w /\
    chainId n = chainId w /\ isNative n = true /\ isWrappedNative w = true.

(** The wrapped address of a selected currency is that of a currency of
    the trade, as the address comparison sees it. *)
Definition sameWrappedAddress {addresses : Addresses}
  (selected ofTrade : Currency) : Prop :=
  areAddressesEqual (Some (token_address (wrapped selected)))
                    (Some (token_address (wrapped ofTrade))) = true.

(** Both selected currencies are present, and their wrapped addresses are
    those of the trade's input and output currencies. *)
Definition selectionMatches {addresses : Addresses} (trade : Trade)
  (currencyIn currencyOut : option Currency) : Prop :=
  exists a b,
    currencyIn = Some a /\ currencyOut = Some b
    /\ sameWrappedAddress a (currency (inputAmount trade))
    /\ sameWrappedAddress b (currency (outputAmount trade)).

(** A selected currency, when there is one, wraps to a token that has an
    address. *)
Definition hasAddress (selected : option Currency) : bool :=
  match selected with
  | Some c => negb (String.eqb (token_address (wrapped c)) "")
  | None => true
  end.

(** Between two halves: [n] is the integer nearest to [x], the larger one
    on a tie. *)
Definition nearest_half_up (x : Q) (n : Z) : Prop :=
  (inject_Z n - (1 # 2) <= x /\ x < inject_Z n + (1 # 2))%Q.

(** Rounding to the nearest integer, a half going up. *)
Definition round_half_up (x : Q) : Z := Qfloor (x + (1 # 2)).

(** Follows the spec's words: the underlying raw call data of a trade, that
    of the method parameters of its quote; there is none when the trade,
    its quote or the method parameters are absent. *)
Definition calldataOf (trade : option Trade) : option string :=
  match trade with
  | Some (mkTrade _ _ _ _ _
            (Some (mkQuote (Some (SDK.mkMethodParameters data _))))) =>
      Some data
  | _ => None
  end.

(** A value that plainly writes an integer: a decimal-integer string, a
    number whose value is an integer strictly between [-MAX_SAFE] and
    [MAX_SAFE], or a big integer. *)
Definition writesInteger (value : Ethers.BigNumberish) (z : Z) : Prop :=
  match value with
  | Ethers.OfString s => JSBI.ofString s = Some z
  | Ethers.OfNumber n =>
      exists x, JS.Number_value n = Some x /\ Qeq x (inject_Z z)
                /\ - Ethers.MAX_SAFE < z < Ethers.MAX_SAFE
  | Ethers.OfBigInt z' => z' = z
  | Ethers.OfBigNumber _ | Ethers.OfBytes _ => False
  end.

(** [Wrap] for [Unwrap] and back. *)
Definition mirror (w : WrapType) : WrapType :=
  match w with
  | Wrap => Unwrap
  | Unwrap => Wrap
  | NotApplicable => NotApplicable
  end.

(** Every character of a string passes a test. *)
Fixpoint allChars (test : ascii -> bool) (s : string) : bool :=
  match s with
  | EmptyString => true
  | String c s' => test c && allChars test s'
  end.

(** The characters a serialized query is made of: unreserved characters,
    the percent sign of an escape, and the two separators. *)
Definition queryChar (c : ascii) : bool :=
  JS.unreserved c || Ascii.eqb c "%" || Ascii.eqb c "=" || Ascii.eqb c "&".

(** A character of an encoded component: unreserved, or the percent sign
    of an escape. *)
Definition encodedChar (c : ascii) : bool :=
  JS.unreserved c || Ascii.eqb c "%".

(** The piece of a query one parameter gives. *)
Definition entryOf {numbers : NumberFormat} (entry : string * QueryValue)
  : string :=
  JS.encodeURIComponent (fst entry) ++ "="
  ++ JS.encodeURIComponent (Utils.queryValueToString (snd entry)).

(** The pieces of a string between the occurrences of a separator. *)
Fixpoint split (separator : ascii) (s : string) : list string :=
  match s with
  | EmptyString => [EmptyString]
  | String c s' =>
      if Ascii.eqb c separator then EmptyString :: split separator s'
      else
        match split separator s' with
        | piece :: pieces => String c piece :: pieces
        | [] => [String c EmptyString]
        end
  end.

(** The value of a hexadecimal digit of either case. *)
Definition hexValue (c : ascii) : option N :=
  let n := N_of_ascii c in
  if ((48 <=? n) && (n <=? 57))%N then Some (n - 48)%N
  else if ((65 <=? n) && (n <=? 70))%N then Some (n - 55)%N
  else if ((97 <=? n) && (n <=? 102))%N then Some (n - 87)%N
  else None.

(** Undoing the escapes of [encodeURIComponent], octet by octet. *)
Fixpoint decodeURIComponent (s : string) : option string :=
  match s with
  | EmptyString => Some EmptyString
  | String c s' =>
      if Ascii.eqb c "%" then
        match s' with
        | String high (String low rest) =>
            match hexValue high, hexValue low, decodeURIComponent rest with
            | Some h, Some l, Some decoded =>
                Some (String (ascii_of_N (16 * h + l)) decoded)
            | _, _, _ => None
            end
        | _ => None
        end
      else option_map (String c) (decodeURIComponent s')
  end.

(** One [key=value] piece of a query, decoded. *)
Definition parsePair (piece : string) : option (string * string) :=
  match split "=" piece with
  | [key; value] =>
      match decodeURIComponent key, decodeURIComponent value with
      | Some k, Some v => Some (k, v)
      | _, _ => None
      end
  | _ => None
  end.

Fixpoint parsePairs (pieces : list string) : option (list (string * string)) :=
  match pieces with
  | [] => Some []
  | piece :: rest =>
      match parsePair piece, parsePairs rest with
      | Some entry, Some entries => Some (entry :: entries)
      | _, _ => None
      end
  end.

(** Reading a query string back: the empty string holds no parameter. *)
Definition parseQuery (query : string) : option (list (string * string)) :=
  if String.eqb query "" then Some [] else parsePairs (split "&" query).

(** A fee is absent or a decimal-integer string. *)
Definition isFee (gasFee : option string) : bool :=
  match gasFee with
  | Some s => match JSBI.ofString s with Some _ => true | None => false end
  | None => true
  end.

(** The trade with another execution price. *)
Definition withExecutionPrice (trade : Trade) (price : Price) : Trade := {|
  tradeType := tradeType trade;
  inputAmount := inputAmount trade;
  outputAmount := outputAmount trade;
  executionPrice := price;
  slippageTolerance := slippageTolerance trade;
  quote := quote trade
|}.

(** The slippage tolerance a router call is given. *)
Definition callTolerance {PermitSingle PermitOptions : Type}
  (call : Router.RouterCall PermitSingle PermitOptions) : Percent :=
  match call with
  | Router.UniversalSwapRouter_swapERC20CallParameters _ options =>
      Router.base_slippageTolerance (Router.universal_base options)
  | Router.SwapRouter_swapCallParameters _ options =>
      Router.base_slippageTolerance (Router.legacy_base options)
  end.

End Spec.

(** * Properties *)

(** ** Decimal strings *)

Module JSBIFacts.

(** Reading back the decimal string of an integer gives the integer. *)
Lemma ofString_toString (z : Z) : JSBI.ofString (JSBI.toString z) = Some z.
Proof.
  unfold JSBI.ofString, JSBI.toString.
  rewrite NilZero.isi.
  - simpl. now rewrite DecimalZ.of_to.
  - destruct z; simpl; try discriminate.
    intros [= E]. now apply DecimalPos.Unsigned.to_uint_nonnil in E.
  - destruct z; simpl; try discriminate.
    intros [= E]. now apply DecimalPos.Unsigned.to_uint_nonnil in E.
Qed.

(** A string that reads as an integer is one of its decimal writings; the
    canonical one is what [toString] prints. *)
Lemma toString_injective (a b : Z) : JSBI.toString a = JSBI.toString b -> a = b.
Proof.
  intros E. apply (f_equal JSBI.ofString) in E.
  rewrite !ofString_toString in E. congruence.
Qed.

End JSBIFacts.

(** ** Rounding *)

Module RoundFacts.

Import Spec.
#[local] Open Scope Q_scope.

(** The two bounds, cleared of denominators. *)
Lemma nearest_half_up_Z (p : Z) (d : positive) (n : Z) :
  ((2 * n - 1) * Z.pos d <= 2 * p < (2 * n + 1) * Z.pos d)%Z ->
  nearest_half_up (p # d) n.
Proof.
  unfold nearest_half_up, Qle, Qlt, Qminus, Qplus, Qopp, inject_Z.
  cbn [Qnum Qden]. rewrite !Pos2Z.inj_mul. lia.
Qed.

Lemma nearest_half_up_integer (z : Z) : nearest_half_up (inject_Z z) z.
Proof.
  apply nearest_half_up_Z. lia.
Qed.

Lemma nearest_half_up_positive (m d : positive) :
  let q := (Z.pos m / Z.pos d)%Z in
  let r := (Z.pos m mod Z.pos d)%Z in
  nearest_half_up (Z.pos m # d) (if (Z.pos d <=? 2 * r)%Z then q + 1 else q)%Z.
Proof.
  intros q r.
  assert (Hm : (Z.pos m = Z.pos d * q + r)%Z) by (apply Z.div_mod; lia).
  assert (Hr : (0 <= r < Z.pos d)%Z) by (apply Z.mod_pos_bound; lia).
  clearbody q r. apply nearest_half_up_Z.
  destruct (Z.leb_spec (Z.pos d) (2 * r)); nia.
Qed.

Lemma nearest_half_up_negative (m d : positive) :
  let q := (Z.pos m / Z.pos d)%Z in
  let r := (Z.pos m mod Z.pos d)%Z in
  nearest_half_up (Z.neg m # d) (if (Z.pos d <? 2 * r)%Z then - (q + 1) else - q)%Z.
Proof.
  intros q r.
  assert (Hm : (Z.pos m = Z.pos d * q + r)%Z) by (apply Z.div_mod; lia).
  assert (Hr : (0 <= r < Z.pos d)%Z) by (apply Z.mod_pos_bound; lia).
  assert (Hn : (Z.neg m = - Z.pos m)%Z) by reflexivity.
  clearbody q r. apply nearest_half_up_Z. rewrite Hn.
  destruct (Z.ltb_spec (Z.pos d) (2 * r)); nia.
Qed.

(** [Math.round] of a finite number is the integer nearest to its value,
    halves going up. *)
Lemma Math_round_nearest (n : JS.Number) (x : Q) :
  JS.Number_value n = Some x ->
  exists z, JS.Math_round n = JS.RoundedInteger z /\ nearest_half_up x z.
Proof.
  unfold JS.Number_value, JS.Math_round.
  destruct (Prim2SF n) as [s | s | | s m e]; try discriminate.
  - intros [= <-]. exists 0%Z. split; [reflexivity | apply (nearest_half_up_integer 0)].
  - destruct (0 <=? e)%Z.
    + intros [= <-]. eexists; split; [reflexivity | apply nearest_half_up_integer].
    + intros [= <-]. destruct s.
      * eexists; split; [reflexivity | apply nearest_half_up_negative].
      * eexists; split; [reflexivity | apply nearest_half_up_positive].
Qed.

(** At most one integer is nearest in that sense. *)
Lemma nearest_half_up_unique (x : Q) (a b : Z) :
  nearest_half_up x a -> nearest_half_up x b -> a = b.
Proof.
  unfold nearest_half_up, Qle, Qlt, Qminus, Qplus, Qopp, inject_Z.
  destruct x as [p d]; cbn [Qnum Qden]. rewrite !Pos2Z.inj_mul.
  intros [H1 H2] [H3 H4]. nia.
Qed.

(** The usual formula gives the nearest integer, halves going up. *)
Lemma round_half_up_nearest (x : Q) : nearest_half_up x (round_half_up x).
Proof.
  unfold nearest_half_up, round_half_up.
  pose proof (Qfloor_le (x + (1 # 2))) as Hle.
  pose proof (Qlt_floor (x + (1 # 2))) as Hlt.
  rewrite inject_Z_plus in Hlt.
  change (inject_Z 1) with 1 in Hlt.
  split; lra.
Qed.

(** [Math.round] of a finite number, by the usual formula. *)
Lemma Math_round_round_half_up (n : JS.Number) (x : Q) :
  JS.Number_value n = Some x ->
  JS.Math_round n = JS.RoundedInteger (round_half_up x).
Proof.
  intros Hx. destruct (Math_round_nearest n x Hx) as (z & -> & Hz).
  f_equal. exact (nearest_half_up_unique x _ _ Hz (round_half_up_nearest x)).
Qed.

End RoundFacts.

(** ** Slippage tolerance *)

Module SlippageFacts.

Import SDK App Utils Spec.

(** A tolerance that converts is a number of basis points over ten
    thousand. *)
Lemma slippageToleranceToPercent_inv (slippage : JS.Number) (p : Percent) :
  slippageToleranceToPercent slippage = Normal p ->
  exists basisPoints,
    JS.Math_round (PrimFloat.mul slippage 100%float)
    = JS.RoundedInteger basisPoints
    /\ p = mkFraction basisPoints 10000.
Proof.
  unfold slippageToleranceToPercent.
  destruct (JS.Math_round _) as [ | neg | z]; cbn; try discriminate.
  intros [= <-]. now exists z.
Qed.

(** Every finite product converts. *)
Lemma slippageToleranceToPercent_finite (slippage : JS.Number) :
  JS.Number_isFinite (PrimFloat.mul slippage 100%float) = true ->
  exists basisPoints,
    slippageToleranceToPercent slippage = Normal (mkFraction basisPoints 10000).
Proof.
  unfold slippageToleranceToPercent, JS.Number_isFinite, JS.Math_round.
  destruct (Prim2SF _) as [s | s | | s m e]; try discriminate; intros _.
  - now exists 0.
  - destruct (0 <=? e); [ | destruct s]; eexists; reflexivity.
Qed.

(** A product that is [NaN] or infinite does not convert: [new Percent]
    throws. *)
Lemma slippageToleranceToPercent_not_finite (slippage : JS.Number) :
  JS.Number_isFinite (PrimFloat.mul slippage 100%float) = false ->
  slippageToleranceToPercent slippage = Throw.
Proof.
  unfold slippageToleranceToPercent, JS.Number_isFinite, JS.Math_round.
  destruct (Prim2SF _) as [s | s | | s m e]; try discriminate; reflexivity.
Qed.

Example slippageToleranceToPercent_samples :
  slippageToleranceToPercent 1%float = Normal (mkFraction 100 10000)
  /\ slippageToleranceToPercent 0.125%float = Normal (mkFraction 13 10000)
  /\ slippageToleranceToPercent (-0.125)%float = Normal (mkFraction (-12) 10000)
  /\ slippageToleranceToPercent nan = Throw
  /\ slippageToleranceToPercent infinity = Throw.
Proof.
  repeat split; vm_compute; reflexivity.
Qed.

(** C3: for every slippage number whose product with one hundred is
    finite, [slippageToleranceToPercent] answers the percent
    [round(slippage * 100) / 10000], where the rounding takes the nearest
    integer and sends a half upwards, and no other integer is nearest in
    that sense; one half gives 50 / 10000. *)
Theorem slippageToleranceToPercent_rounds_to_basis_points :
  (forall (slippage : JS.Number) (x : Q),
      JS.Number_value (PrimFloat.mul slippage 100%float) = Some x ->
      slippageToleranceToPercent slippage
      = Normal (mkFraction (round_half_up x) 10000)
      /\ nearest_half_up x (round_half_up x)
      /\ forall n, nearest_half_up x n -> n = round_half_up x)
  /\ slippageToleranceToPercent 0.5%float = Normal (mkFraction 50 10000).
Proof.
  split.
  - intros slippage x Hx. repeat split.
    + unfold slippageToleranceToPercent.
      now rewrite (RoundFacts.Math_round_round_half_up _ _ Hx).
    + apply RoundFacts.round_half_up_nearest.
    + apply RoundFacts.round_half_up_nearest.
    + intros n Hn.
      exact (RoundFacts.nearest_half_up_unique x _ _ Hn
               (RoundFacts.round_half_up_nearest x)).
  - vm_compute. reflexivity.
Qed.

(** The tolerance [0x1.eb851eb851eb8p-7] (written 0.015 in decimal): its
    product with one hundred is the number 1.5, which rounds to 2. *)
Lemma slippageToleranceToPercent_rounds_to_basis_points_witness :
  let x := 6755399441055744 # 4503599627370496 in
  slippageToleranceToPercent 0x1.eb851eb851eb8p-7%float
  = Normal (mkFraction (round_half_up x) 10000)
  /\ nearest_half_up x (round_half_up x)
  /\ forall n, nearest_half_up x n -> n = round_half_up x.
Proof.
  intros x.
  apply (proj1 slippageToleranceToPercent_rounds_to_basis_points).
  vm_compute. reflexivity.
Defined.

Example slippageToleranceToPercent_tie :
  slippageToleranceToPercent 0x1.eb851eb851eb8p-7%float
  = Normal (mkFraction 2 10000).
Proof.
  vm_compute. reflexivity.
Qed.

End SlippageFacts.

(** ** The transaction record of a trade *)

Module TradeInfoFacts.

Import SDK App Utils Spec.

(** Splits a sequence of calls that completed normally into its steps. *)
Ltac bind_inversion H :=
  repeat match type of H with
         | match ?c with Normal _ => _ | Throw => _ end = Normal _ =>
             let E := fresh "E" in
             destruct c eqn:E; [ | discriminate H]
         | (if ?b then _ else _) = Normal _ =>
             let E := fresh "E" in
             destruct b eqn:E; try discriminate H
         end.

Lemma Normal_inj {A : Type} (a b : A) : Normal a = Normal b -> a = b.
Proof.
  congruence.
Qed.

Lemma quotient_nonnegative (a : CurrencyAmount) (q : Z) :
  nonnegative a -> quotient a = Normal q -> 0 <= q.
Proof.
  unfold nonnegative, quotient, Fraction_quotient, JSBI.divide.
  intros [Hn Hd]. destruct (_ =? 0); [discriminate | ].
  intros [= <-]. apply Z.quot_pos; lia.
Qed.

Lemma quotient_fromRawAmount (c : Currency) (raw : Z) (a : CurrencyAmount) :
  fromRawAmount c raw = Normal a -> quotient a = Normal raw.
Proof.
  unfold fromRawAmount. destruct (raw <=? _); [ | discriminate].
  intros [= <-]. unfold quotient, Fraction_quotient, JSBI.divide; cbn.
  now rewrite Z.quot_1_r.
Qed.

(** One plus a tolerance in basis points, as [Fraction.add] builds it. *)
Lemma one_plus_tolerance (basisPoints : Z) :
  Fraction_add (Fraction_of 1) (mkFraction basisPoints 10000)
  = mkFraction (1 * 10000 + basisPoints * 1) (1 * 10000).
Proof.
  reflexivity.
Qed.

(** The minimum output of an exact-input trade: the expected output times
    [10000 / (10000 + basis points)], truncated. *)
Lemma minimumAmountOut_exact_input (t : Trade) (basisPoints : Z)
  (a : CurrencyAmount) :
  tradeType t = EXACT_INPUT ->
  minimumAmountOut t (mkFraction basisPoints 10000) = Normal a ->
  exists q,
    quotient (outputAmount t) = Normal q /\ 0 <= basisPoints
    /\ quotient a = Normal (Z.quot (10000 * q) (10000 + basisPoints)).
Proof.
  intros Htype H. unfold minimumAmountOut in H. rewrite Htype in H.
  unfold Fraction_lessThan, Fraction_quotient, Fraction_multiply,
    Fraction_invert, JSBI.divide in H.
  rewrite one_plus_tolerance in H. cbn [numerator denominator Fraction_of] in H.
  destruct (Z.ltb_spec (basisPoints * 1) (0 * 10000)) as [ | Hbp];
    [discriminate | ].
  bind_inversion H. apply quotient_fromRawAmount in H.
  destruct (_ =? 0) in E0; [discriminate | ]. apply Normal_inj in E0. subst a1.
  exists a0. split; [reflexivity | split; [lia | ]].
  rewrite H. do 2 f_equal; lia.
Qed.

(** The maximum input of an exact-output trade: the expected input times
    [(10000 + basis points) / 10000], truncated. *)
Lemma maximumAmountIn_exact_output (t : Trade) (basisPoints : Z)
  (a : CurrencyAmount) :
  tradeType t = EXACT_OUTPUT ->
  maximumAmountIn t (mkFraction basisPoints 10000) = Normal a ->
  exists q,
    quotient (inputAmount t) = Normal q /\ 0 <= basisPoints
    /\ quotient a = Normal (Z.quot ((10000 + basisPoints) * q) 10000).
Proof.
  intros Htype H. unfold maximumAmountIn in H. rewrite Htype in H.
  unfold Fraction_lessThan, Fraction_quotient, Fraction_multiply,
    JSBI.divide in H.
  rewrite one_plus_tolerance in H. cbn [numerator denominator Fraction_of] in H.
  destruct (Z.ltb_spec (basisPoints * 1) (0 * 10000)) as [ | Hbp];
    [discriminate | ].
  bind_inversion H. apply quotient_fromRawAmount in H.
  destruct (_ =? 0) in E0; [discriminate | ]. apply Normal_inj in E0. subst a1.
  exists a0. split; [reflexivity | split; [lia | ]].
  rewrite H. do 2 f_equal; lia.
Qed.

Lemma minimum_le_expected (q basisPoints : Z) :
  0 <= q -> 0 <= basisPoints -> Z.quot (10000 * q) (10000 + basisPoints) <= q.
Proof.
  intros Hq Hbp. rewrite Z.quot_div_nonneg by lia.
  apply Z.div_le_upper_bound; nia.
Qed.

Lemma expected_le_maximum (q basisPoints : Z) :
  0 <= q -> 0 <= basisPoints -> q <= Z.quot ((10000 + basisPoints) * q) 10000.
Proof.
  intros Hq Hbp. rewrite Z.quot_div_nonneg by nia.
  apply Z.div_le_lower_bound; nia.
Qed.

Lemma TradeType_eqb_eq (a b : TradeType) : TradeType_eqb a b = true <-> a = b.
Proof.
  destruct a, b; cbn; split; congruence.
Qed.

Lemma decimal_of_toString (z : Z) : decimal_of (JSBI.toString z) z.
Proof.
  split; [apply JSBIFacts.ofString_toString | reflexivity].
Qed.

(** What a returned record was built from. *)
Lemma tradeToTransactionInfo_inv {ids : CurrencyIdUtils} (trade : Trade)
  (info : SwapTransactionInfo) :
  tradeToTransactionInfo trade = Normal info ->
  exists tolerance input output bound raw,
    slippageToleranceToPercent (slippageTolerance trade) = Normal tolerance
    /\ quotient (inputAmount trade) = Normal input
    /\ quotient (outputAmount trade) = Normal output
    /\ quotient bound = Normal raw
    /\ ((tradeType trade = EXACT_INPUT
         /\ minimumAmountOut trade tolerance = Normal bound
         /\ info = ExactInputInfo {|
              in_type := Swap;
              in_inputCurrencyId := currencyId (currency (inputAmount trade));
              in_outputCurrencyId := currencyId (currency (outputAmount trade));
              in_tradeType := EXACT_INPUT;
              inputCurrencyAmountRaw := JSBI.toString input;
              expectedOutputCurrencyAmountRaw := JSBI.toString output;
              minimumOutputCurrencyAmountRaw := JSBI.toString raw |})
        \/ (tradeType trade = EXACT_OUTPUT
            /\ maximumAmountIn trade tolerance = Normal bound
            /\ info = ExactOutputInfo {|
                 out_type := Swap;
                 out_inputCurrencyId := currencyId (currency (inputAmount trade));
                 out_outputCurrencyId := currencyId (currency (outputAmount trade));
                 out_tradeType := EXACT_OUTPUT;
                 outputCurrencyAmountRaw := JSBI.toString output;
                 expectedInputCurrencyAmountRaw := JSBI.toString input;
                 maximumInputCurrencyAmountRaw := JSBI.toString raw |})).
Proof.
  intros H. unfold tradeToTransactionInfo in H.
  destruct (slippageToleranceToPercent _) as [tolerance | ] eqn:Etol;
    [ | discriminate].
  destruct (TradeType_eqb (tradeType trade) EXACT_INPUT) eqn:Etype.
  - apply TradeType_eqb_eq in Etype. bind_inversion H.
    apply Normal_inj in H. subst info.
    exists tolerance, a, a0, a1, a2. repeat (split; [first [reflexivity | assumption] | ]).
    left. repeat split; assumption.
  - assert (Hout : tradeType trade = EXACT_OUTPUT).
    { destruct (tradeType trade); [discriminate | reflexivity]. }
    bind_inversion H. apply Normal_inj in H. subst info.
    exists tolerance, a0, a, a1, a2. repeat (split; [first [reflexivity | assumption] | ]).
    right. repeat split; assumption.
Qed.

(** C1: for every trade with non-negative amounts, the record
    [tradeToTransactionInfo] returns for an exact-input trade has a minimum
    output that is at most the expected output, and the record it returns
    for an exact-output trade has a maximum input that is at least the
    expected input, the fields being read as decimal integers. *)
Theorem tradeToTransactionInfo_slippage_bounds {ids : CurrencyIdUtils}
  (trade : Trade) (info : SwapTransactionInfo) :
  nonnegative (inputAmount trade) ->
  nonnegative (outputAmount trade) ->
  tradeToTransactionInfo trade = Normal info ->
  (tradeType trade = EXACT_INPUT ->
   exists r minimum expected,
     info = ExactInputInfo r
     /\ decimal_of (minimumOutputCurrencyAmountRaw r) minimum
     /\ decimal_of (expectedOutputCurrencyAmountRaw r) expected
     /\ minimum <= expected)
  /\ (tradeType trade = EXACT_OUTPUT ->
      exists r maximum expected,
        info = ExactOutputInfo r
        /\ decimal_of (maximumInputCurrencyAmountRaw r) maximum
        /\ decimal_of (expectedInputCurrencyAmountRaw r) expected
        /\ maximum >= expected).
Proof.
  intros Hin Hout H.
  destruct (tradeToTransactionInfo_inv _ _ H)
    as (tolerance & input & output & bound & raw & Htol & Ei & Eo & Eraw & Hcase).
  destruct (SlippageFacts.slippageToleranceToPercent_inv _ _ Htol)
    as (basisPoints & _ & ->).
  pose proof (quotient_nonnegative _ _ Hin Ei) as Hi.
  pose proof (quotient_nonnegative _ _ Hout Eo) as Ho.
  destruct Hcase as [(Htype & Hbound & ->) | (Htype & Hbound & ->)];
    split; intros Htype'; try congruence.
  - destruct (minimumAmountOut_exact_input _ _ _ Htype Hbound)
      as (q & Eq & Hbp & Eraw').
    assert (q = output) by congruence. subst q.
    assert (raw = Z.quot (10000 * output) (10000 + basisPoints)) by congruence.
    eexists _, raw, output. split; [reflexivity | ]. cbn.
    repeat split; try apply JSBIFacts.ofString_toString.
    subst raw. now apply minimum_le_expected.
  - destruct (maximumAmountIn_exact_output _ _ _ Htype Hbound)
      as (q & Eq & Hbp & Eraw').
    assert (q = input) by congruence. subst q.
    assert (raw = Z.quot ((10000 + basisPoints) * input) 10000) by congruence.
    eexists _, raw, input. split; [reflexivity | ]. cbn.
    repeat split; try apply JSBIFacts.ofString_toString.
    subst raw. apply Z.le_ge. now apply expected_le_maximum.
Qed.

Lemma quotient_defined (a : CurrencyAmount) :
  nonnegative a ->
  quotient a = Normal (Z.quot (numerator (amount a)) (denominator (amount a))).
Proof.
  unfold nonnegative, quotient, Fraction_quotient, JSBI.divide. intros [_ Hd].
  destruct (Z.eqb_spec (denominator (amount a)) 0); [lia | reflexivity].
Qed.

(** A record is returned for every trade with non-negative amounts whose
    tolerance rounds to a non-negative number of basis points, as long as
    the bound stays within 256 bits. *)
Lemma tradeToTransactionInfo_returns {ids : CurrencyIdUtils} (trade : Trade)
  (basisPoints input output : Z) :
  JS.Math_round (PrimFloat.mul (slippageTolerance trade) 100%float)
  = JS.RoundedInteger basisPoints ->
  0 <= basisPoints ->
  nonnegative (inputAmount trade) ->
  nonnegative (outputAmount trade) ->
  quotient (inputAmount trade) = Normal input ->
  quotient (outputAmount trade) = Normal output ->
  output <= JSBI.MaxUint256 ->
  Z.quot ((10000 + basisPoints) * input) 10000 <= JSBI.MaxUint256 ->
  exists info, tradeToTransactionInfo trade = Normal info.
Proof.
  intros Hround Hbp Hin Hout Ei Eo Hmax_out Hmax_in.
  pose proof (quotient_nonnegative _ _ Hin Ei) as Hi.
  pose proof (quotient_nonnegative _ _ Hout Eo) as Ho.
  unfold tradeToTransactionInfo, slippageToleranceToPercent.
  rewrite Hround. cbn [JSBI.BigInt]. rewrite Ei, Eo.
  unfold minimumAmountOut, maximumAmountIn, Fraction_lessThan,
    Fraction_quotient, Fraction_multiply, Fraction_invert, JSBI.divide.
  rewrite one_plus_tolerance, Ei, Eo. cbn [numerator denominator Fraction_of].
  destruct (Z.ltb_spec (basisPoints * 1) (0 * 10000)); [lia | ].
  destruct (tradeType trade); cbn [TradeType_eqb].
  - destruct (Z.eqb_spec ((1 * 10000 + basisPoints * 1) * 1) 0); [lia | ].
    unfold fromRawAmount.
    destruct (Z.leb_spec
                (Z.quot (1 * 10000 * output) ((1 * 10000 + basisPoints * 1) * 1))
                JSBI.MaxUint256) as [ | Hgt].
    + unfold quotient, Fraction_quotient, JSBI.divide.
      cbn [amount numerator denominator Fraction_of].
      change (1 =? 0) with false. cbn iota. eexists; reflexivity.
    + pose proof (minimum_le_expected output basisPoints Ho Hbp).
      replace (1 * 10000 * output) with (10000 * output) in Hgt by lia.
      replace ((1 * 10000 + basisPoints * 1) * 1) with (10000 + basisPoints)
        in Hgt by lia.
      lia.
  - change (1 * 10000 * 1 =? 0) with false. cbn iota.
    unfold fromRawAmount.
    replace ((1 * 10000 + basisPoints * 1) * input)
      with ((10000 + basisPoints) * input) by lia.
    change (1 * 10000 * 1) with 10000.
    destruct (Z.leb_spec (Z.quot ((10000 + basisPoints) * input) 10000)
                JSBI.MaxUint256); [ | lia].
    unfold quotient, Fraction_quotient, JSBI.divide.
    cbn [amount numerator denominator Fraction_of].
    change (1 =? 0) with false. cbn iota. eexists; reflexivity.
Qed.

(** One ether for two thousand dai at half a percent, exact input: the
    minimum output stays below the expected output. *)
Lemma tradeToTransactionInfo_slippage_bounds_witness :
  let trade := Sample.ethForDai EXACT_INPUT 0.5%float None in
  exists info,
    tradeToTransactionInfo (ids := Sample.ids) trade = Normal info
    /\ (tradeType trade = EXACT_INPUT ->
        exists r minimum expected,
          info = ExactInputInfo r
          /\ decimal_of (minimumOutputCurrencyAmountRaw r) minimum
          /\ decimal_of (expectedOutputCurrencyAmountRaw r) expected
          /\ minimum <= expected)
    /\ (tradeType trade = EXACT_OUTPUT ->
        exists r maximum expected,
          info = ExactOutputInfo r
          /\ decimal_of (maximumInputCurrencyAmountRaw r) maximum
          /\ decimal_of (expectedInputCurrencyAmountRaw r) expected
          /\ maximum >= expected).
Proof.
  intros trade.
  assert (H : exists info,
             tradeToTransactionInfo (ids := Sample.ids) trade = Normal info)
    by (eexists; vm_compute; reflexivity).
  destruct H as (info & H). exists info. split; [exact H | ].
  apply (tradeToTransactionInfo_slippage_bounds (ids := Sample.ids) trade info).
  - unfold nonnegative; cbn; lia.
  - unfold nonnegative; cbn; lia.
  - exact H.
Defined.

(** C4: for every trade, the record [tradeToTransactionInfo] returns is
    tagged with the trade's own trade type, and each of its amount fields
    is the decimal writing of the integer it stands for: the quotients of
    the trade's input and output amounts, and the quotient of the minimum
    output or maximum input under the converted slippage tolerance. *)
Theorem tradeToTransactionInfo_tag_and_amounts {ids : CurrencyIdUtils}
  (trade : Trade) (info : SwapTransactionInfo) :
  tradeToTransactionInfo trade = Normal info ->
  info_tradeType info = tradeType trade
  /\ exists tolerance input output,
      slippageToleranceToPercent (slippageTolerance trade) = Normal tolerance
      /\ quotient (inputAmount trade) = Normal input
      /\ quotient (outputAmount trade) = Normal output
      /\ match info with
         | ExactInputInfo r =>
             exists minimumOut minimum,
               minimumAmountOut trade tolerance = Normal minimumOut
               /\ quotient minimumOut = Normal minimum
               /\ decimal_of (inputCurrencyAmountRaw r) input
               /\ decimal_of (expectedOutputCurrencyAmountRaw r) output
               /\ decimal_of (minimumOutputCurrencyAmountRaw r) minimum
         | ExactOutputInfo r =>
             exists maximumIn maximum,
               maximumAmountIn trade tolerance = Normal maximumIn
               /\ quotient maximumIn = Normal maximum
               /\ decimal_of (outputCurrencyAmountRaw r) output
               /\ decimal_of (expectedInputCurrencyAmountRaw r) input
               /\ decimal_of (maximumInputCurrencyAmountRaw r) maximum
         end.
Proof.
  intros H.
  destruct (tradeToTransactionInfo_inv _ _ H)
    as (tolerance & input & output & bound & raw & Htol & Ei & Eo & Eraw & Hcase).
  destruct Hcase as [(Htype & Hbound & ->) | (Htype & Hbound & ->)]; cbn.
  - split; [congruence | ].
    exists tolerance, input, output. repeat (split; [assumption | ]).
    exists bound, raw. repeat (split; [assumption | ]).
    repeat split; apply decimal_of_toString.
  - split; [congruence | ].
    exists tolerance, input, output. repeat (split; [assumption | ]).
    exists bound, raw. repeat (split; [assumption | ]).
    repeat split; apply decimal_of_toString.
Qed.

(** One ether for two thousand dai at one percent, exact output. *)
Lemma tradeToTransactionInfo_tag_and_amounts_witness :
  let trade := Sample.ethForDai EXACT_OUTPUT 1%float None in
  exists info,
    tradeToTransactionInfo (ids := Sample.ids) trade = Normal info
    /\ info_tradeType info = EXACT_OUTPUT
    /\ exists tolerance input output,
        slippageToleranceToPercent (slippageTolerance trade) = Normal tolerance
        /\ quotient (inputAmount trade) = Normal input
        /\ quotient (outputAmount trade) = Normal output
        /\ match info with
           | ExactInputInfo r =>
               exists minimumOut minimum,
                 minimumAmountOut trade tolerance = Normal minimumOut
                 /\ quotient minimumOut = Normal minimum
                 /\ decimal_of (inputCurrencyAmountRaw r) input
                 /\ decimal_of (expectedOutputCurrencyAmountRaw r) output
                 /\ decimal_of (minimumOutputCurrencyAmountRaw r) minimum
           | ExactOutputInfo r =>
               exists maximumIn maximum,
                 maximumAmountIn trade tolerance = Normal maximumIn
                 /\ quotient maximumIn = Normal maximum
                 /\ decimal_of (outputCurrencyAmountRaw r) output
                 /\ decimal_of (expectedInputCurrencyAmountRaw r) input
                 /\ decimal_of (maximumInputCurrencyAmountRaw r) maximum
           end.
Proof.
  intros trade.
  assert (H : exists info,
             tradeToTransactionInfo (ids := Sample.ids) trade = Normal info)
    by (eexists; vm_compute; reflexivity).
  destruct H as (info & H). exists info. split; [exact H | ].
  exact (tradeToTransactionInfo_tag_and_amounts (ids := Sample.ids) trade info H).
Defined.

End TradeInfoFacts.

(** ** Gas fees *)

Module GasFeeFacts.

Import Utils Spec.

(** A string with a hexadecimal prefix is not a string of decimal digits. *)
Lemma hex_magnitude_not_decimal (s : string) (v : Z) :
  Ethers.hex_magnitude s = Some v -> NilEmpty.uint_of_string s = None.
Proof.
  destruct s as [ | z [ | x [ | c s']]]; try discriminate.
  unfold Ethers.hex_magnitude.
  destruct (Ascii.eqb z "0"); [ | discriminate]. cbn [andb].
  destruct (Ascii.eqb_spec x "x") as [-> | _].
  - intros _. cbn. now destruct (uint_of_char c _).
  - destruct (Ascii.eqb_spec x "X") as [-> | _]; [ | discriminate].
    intros _. cbn. now destruct (uint_of_char c _).
Qed.

Lemma NilZero_uint_of_string_None (s : string) :
  NilEmpty.uint_of_string s = None -> NilZero.uint_of_string s = None.
Proof.
  destruct s; [reflexivity | intros H; exact H].
Qed.

(** A decimal string is never read as a hexadecimal one. *)
Lemma decimal_not_hex (s : string) (z : Z) :
  JSBI.ofString s = Some z -> Ethers.ofHexString s = None.
Proof.
  unfold JSBI.ofString, Ethers.ofHexString, NilZero.int_of_string.
  destruct s as [ | c s']; [reflexivity | ].
  destruct (Ascii.eqb c "-").
  - destruct (Ethers.hex_magnitude s') as [v | ] eqn:E; [ | reflexivity].
    apply hex_magnitude_not_decimal, NilZero_uint_of_string_None in E.
    rewrite E. discriminate.
  - destruct (Ethers.hex_magnitude (String c s')) as [v | ] eqn:E;
      [ | reflexivity].
    apply hex_magnitude_not_decimal, NilZero_uint_of_string_None in E.
    rewrite E. discriminate.
Qed.

Lemma BigNumber_from_decimal (s : string) (z : Z) :
  JSBI.ofString s = Some z -> Ethers.BigNumber_from (Some s) = Normal z.
Proof.
  intros H. unfold Ethers.BigNumber_from.
  now rewrite (decimal_not_hex _ _ H), H.
Qed.

(** A decimal string is not empty, hence truthy. *)
Lemma decimal_truthy (s : string) (z : Z) :
  JSBI.ofString s = Some z -> JS.truthy (Some s) = true.
Proof.
  destruct s; [discriminate | reflexivity].
Qed.

(** C5: for decimal-integer strings, [sumGasFees] returns the decimal
    writing of the exact integer sum when both fees are present, the
    present fee unchanged when exactly one is, and [undefined] when neither
    is; ["100"] and ["200"] give ["300"], [undefined] and ["200"] give
    ["200"]. *)
Theorem sumGasFees_exact_sum :
  (forall (gasFee1 gasFee2 : string) (fee1 fee2 : Z),
      JSBI.ofString gasFee1 = Some fee1 ->
      JSBI.ofString gasFee2 = Some fee2 ->
      exists total,
        sumGasFees (Some gasFee1) (Some gasFee2) = Normal (Some total)
        /\ decimal_of total (fee1 + fee2))
  /\ (forall (gasFee : string) (fee : Z),
         JSBI.ofString gasFee = Some fee ->
         sumGasFees (Some gasFee) None = Normal (Some gasFee)
         /\ sumGasFees None (Some gasFee) = Normal (Some gasFee))
  /\ sumGasFees None None = Normal None
  /\ sumGasFees (Some "100") (Some "200") = Normal (Some "300")
  /\ sumGasFees None (Some "200") = Normal (Some "200").
Proof.
  repeat split; try reflexivity.
  - intros gasFee1 gasFee2 fee1 fee2 H1 H2.
    exists (JSBI.toString (fee1 + fee2)). split.
    + unfold sumGasFees, Ethers.BigNumber_add.
      rewrite (decimal_truthy _ _ H1), (decimal_truthy _ _ H2).
      cbn [negb orb].
      now rewrite (BigNumber_from_decimal _ _ H1),
        (BigNumber_from_decimal _ _ H2).
    + split; [apply JSBIFacts.ofString_toString | reflexivity].
  - unfold sumGasFees, JS.or_else.
    rewrite (decimal_truthy _ _ H). reflexivity.
Qed.

(** Two fees above [2^53], where floating point would lose the last
    digit. *)
Lemma sumGasFees_exact_sum_witness :
  exists total,
    sumGasFees (Some "9007199254740993") (Some "9007199254740993")
    = Normal (Some total)
    /\ decimal_of total (9007199254740993 + 9007199254740993).
Proof.
  apply (proj1 sumGasFees_exact_sum); reflexivity.
Defined.

(** C10: [sumGasFees] takes the empty string for an absent fee: with an
    empty first or second argument it returns the other string as it is,
    whatever that string holds and with no conversion attempted, and two
    empty strings give the empty string, not [undefined]. *)
Theorem sumGasFees_empty_string (s : string) :
  sumGasFees (Some "") (Some s) = Normal (Some s)
  /\ sumGasFees (Some s) (Some "") = Normal (Some s)
  /\ sumGasFees (Some "") (Some "") = Normal (Some "")
  /\ Ethers.BigNumber_from (Some "") = Throw.
Proof.
  repeat split.
  unfold sumGasFees, JS.or_else, JS.truthy.
  destruct (String.eqb_spec s "") as [-> | _]; reflexivity.
Qed.

End GasFeeFacts.

(** ** Wrapping and unwrapping *)

Module WrapFacts.

Import SDK App Utils Spec.

Section Classification.

Context {ids : CurrencyIdUtils} {tokens : Tokens}.

(** The native asset is never identified with the wrapped native token. *)
Hypothesis native_not_wrapped :
  forall c : Currency, isNative c = true -> isWrappedNative c = false.

Lemma wrapPair_exclusive (a b : option Currency) :
  wrapPair a b -> wrapPair b a -> False.
Proof.
  intros (n & w & -> & -> & _ & Hn & _) (n' & w' & [= <-] & [= <-] & _ & _ & Hw).
  rewrite (native_not_wrapped _ Hn) in Hw. discriminate.
Qed.

Lemma getWrapType_Wrap (i o : option Currency) :
  getWrapType i o = Wrap <-> wrapPair i o.
Proof.
  unfold getWrapType, wrapPair, isWrappedNative. split.
  - destruct i as [i | ], o as [o | ]; try discriminate.
    destruct (Z.eqb_spec (chainId i) (chainId o)) as [E | ];
      cbn [negb]; [ | discriminate].
    destruct (isNative i) eqn:Hi; cbn [andb].
    + destruct (areCurrencyIdsEqual (currencyId o) _) eqn:Ho.
      * intros _. exists i, o. rewrite <- E. auto.
      * destruct (isNative o && _); discriminate.
    + destruct (isNative o && _); discriminate.
  - intros (n & w & -> & -> & E & Hn & Hw).
    rewrite E, Z.eqb_refl, Hn, Hw. reflexivity.
Qed.

Lemma getWrapType_Unwrap (i o : option Currency) :
  getWrapType i o = Unwrap <-> wrapPair o i.
Proof.
  split.
  - unfold getWrapType, wrapPair, isWrappedNative.
    destruct i as [i | ], o as [o | ]; try discriminate.
    destruct (Z.eqb_spec (chainId i) (chainId o)) as [E | ];
      cbn [negb]; [ | discriminate].
    destruct (isNative i && _); [discriminate | ].
    destruct (isNative o) eqn:Ho; cbn [andb]; [ | discriminate].
    destruct (areCurrencyIdsEqual (currencyId i) _) eqn:Hi; [ | discriminate].
    intros _. exists o, i. auto.
  - intros H.
    destruct (getWrapType i o) eqn:G; [ | | reflexivity].
    + destruct H as (n & w & -> & -> & E & Hn & Hw).
      unfold getWrapType, isWrappedNative in *.
      rewrite E, Z.eqb_refl, Hn, Hw in G. cbn [negb andb] in G.
      destruct (isNative w && _); discriminate.
    + apply getWrapType_Wrap in G. destruct (wrapPair_exclusive _ _ G H).
Qed.

End Classification.

(** C2: [getWrapType] answers [Wrap] exactly when both currencies are
    present, on one chain, the input native and the output that chain's
    wrapped native token; [Unwrap] exactly when the roles are exchanged;
    and [NotApplicable] in every other case.  The native asset is taken
    not to be identified with the wrapped native token. *)
Theorem getWrapType_classification {ids : CurrencyIdUtils} {tokens : Tokens}
  (native_not_wrapped :
     forall c : Currency, isNative c = true -> isWrappedNative c = false)
  (inputCurrency outputCurrency : option Currency) :
  (getWrapType inputCurrency outputCurrency = Wrap
   <-> wrapPair inputCurrency outputCurrency)
  /\ (getWrapType inputCurrency outputCurrency = Unwrap
      <-> wrapPair outputCurrency inputCurrency)
  /\ (getWrapType inputCurrency outputCurrency = NotApplicable
      <-> ~ wrapPair inputCurrency outputCurrency
          /\ ~ wrapPair outputCurrency inputCurrency).
Proof.
  pose proof (getWrapType_Wrap inputCurrency outputCurrency) as HW.
  pose proof (getWrapType_Unwrap native_not_wrapped inputCurrency outputCurrency)
    as HU.
  split; [exact HW | split; [exact HU | ]].
  destruct (getWrapType inputCurrency outputCurrency); split.
  - intros _. split; intros H; [apply HW in H | apply HU in H]; discriminate.
  - reflexivity.
  - discriminate.
  - intros [H _]. destruct H. now apply HW.
  - discriminate.
  - intros [_ H]. destruct H. now apply HU.
Qed.

Lemma toLowerCase_app (a b : string) :
  Sample.toLowerCase (a ++ b) = Sample.toLowerCase a ++ Sample.toLowerCase b.
Proof.
  induction a as [ | c a IH]; cbn; [reflexivity | now rewrite IH].
Qed.

Lemma eqb_common_prefix (p a b : string) :
  String.eqb (p ++ a) (p ++ b) = String.eqb a b.
Proof.
  induction p as [ | c p IH]; cbn; [reflexivity | ].
  now rewrite Ascii.eqb_refl.
Qed.

(** With the sample identifiers, a native asset and the wrapped native
    token differ in the address part of their identifiers. *)
Lemma sample_native_not_wrapped (c : Currency) :
  isNative c = true ->
  isWrappedNative (ids := Sample.ids) (tokens := Sample.tokens) c = false.
Proof.
  intros Hc. unfold isWrappedNative. cbn. rewrite Hc.
  rewrite !toLowerCase_app, eqb_common_prefix. reflexivity.
Qed.

(** Ether into wrapped ether on the main network. *)
Lemma getWrapType_classification_witness :
  (getWrapType (ids := Sample.ids) (tokens := Sample.tokens)
     (Some Sample.ETH) (Some Sample.WETH) = Wrap
   <-> wrapPair (ids := Sample.ids) (tokens := Sample.tokens)
         (Some Sample.ETH) (Some Sample.WETH))
  /\ (getWrapType (ids := Sample.ids) (tokens := Sample.tokens)
        (Some Sample.ETH) (Some Sample.WETH) = Unwrap
      <-> wrapPair (ids := Sample.ids) (tokens := Sample.tokens)
            (Some Sample.WETH) (Some Sample.ETH))
  /\ (getWrapType (ids := Sample.ids) (tokens := Sample.tokens)
        (Some Sample.ETH) (Some Sample.WETH) = NotApplicable
      <-> ~ wrapPair (ids := Sample.ids) (tokens := Sample.tokens)
            (Some Sample.ETH) (Some Sample.WETH)
          /\ ~ wrapPair (ids := Sample.ids) (tokens := Sample.tokens)
               (Some Sample.WETH) (Some Sample.ETH)).
Proof.
  exact (getWrapType_classification (ids := Sample.ids)
           (tokens := Sample.tokens) sample_native_not_wrapped
           (Some Sample.ETH) (Some Sample.WETH)).
Defined.

(** The sample currencies classify as expected. *)
Example getWrapType_samples :
  getWrapType (ids := Sample.ids) (tokens := Sample.tokens)
    (Some Sample.ETH) (Some Sample.WETH) = Wrap
  /\ getWrapType (ids := Sample.ids) (tokens := Sample.tokens)
       (Some Sample.WETH) (Some Sample.ETH) = Unwrap
  /\ getWrapType (ids := Sample.ids) (tokens := Sample.tokens)
       (Some Sample.ETH) (Some Sample.DAI) = NotApplicable
  /\ getWrapType (ids := Sample.ids) (tokens := Sample.tokens)
       (Some Sample.ETH) None = NotApplicable.
Proof.
  repeat split; vm_compute; reflexivity.
Qed.

End WrapFacts.

(** ** Stale trades *)

Module StaleFacts.

Import SDK App Utils Spec.

Lemma truthy_address (c : option Currency) :
  hasAddress c = true ->
  JS.truthy (JS.chain c (fun c' => Some (token_address (wrapped c'))))
  = match c with Some _ => true | None => false end.
Proof.
  destruct c as [c | ]; [ | reflexivity]. cbn. intros H; exact H.
Qed.

(** C6: for selected currencies whose wrapped tokens have an address,
    [clearStaleTrades] returns the trade it was given exactly when both
    selected currencies are present and their wrapped addresses equal,
    under the address comparison, those of the trade's input and output
    currencies; in every other case it returns [null]. *)
Theorem clearStaleTrades_keeps_matching_trade {addresses : Addresses}
  (trade : Trade) (currencyIn currencyOut : option Currency) :
  hasAddress currencyIn = true ->
  hasAddress currencyOut = true ->
  (clearStaleTrades trade currencyIn currencyOut = Some trade
   <-> selectionMatches trade currencyIn currencyOut)
  /\ (clearStaleTrades trade currencyIn currencyOut = None
      <-> ~ selectionMatches trade currencyIn currencyOut).
Proof.
  intros Hin Hout.
  unfold clearStaleTrades, selectionMatches, sameWrappedAddress.
  rewrite (truthy_address _ Hin), (truthy_address _ Hout).
  destruct currencyIn as [a | ], currencyOut as [b | ]; cbn [JS.chain andb];
    rewrite ?Bool.andb_false_r;
    try (split; split; try discriminate; try reflexivity;
         [ intros (a' & b' & Ha & Hb & _); discriminate
         | intros _ (a' & b' & Ha & Hb & _); discriminate ]).
  destruct (areAddressesEqual _ _) eqn:Ea; cbn [andb].
  - destruct (areAddressesEqual (Some (token_address (wrapped b))) _) eqn:Eb;
      split; split; try discriminate; try reflexivity.
    + intros _. exists a, b. auto.
    + intros H. destruct H. exists a, b. auto.
    + intros (a' & b' & [= <-] & [= <-] & _ & H). congruence.
    + intros _ (a' & b' & [= <-] & [= <-] & _ & H). congruence.
  - split; split; try discriminate; try reflexivity.
    + intros (a' & b' & [= <-] & [= <-] & H & _). congruence.
    + intros _ (a' & b' & [= <-] & [= <-] & H & _). congruence.
Qed.

(** A trade of ether for dai is kept while ether and dai stay selected,
    whatever the letter case of the selected address. *)
Lemma clearStaleTrades_keeps_matching_trade_witness :
  let trade := Sample.ethForDai EXACT_INPUT 0.5%float None in
  let dai :=
    TokenCurrency
      (mkToken 1 "0x6b175474e89094c44da98b954eedeac495271d0f" (Some "DAI")) in
  (clearStaleTrades (addresses := Sample.addresses) trade
     (Some Sample.ETH) (Some dai) = Some trade
   <-> selectionMatches (addresses := Sample.addresses) trade
         (Some Sample.ETH) (Some dai))
  /\ (clearStaleTrades (addresses := Sample.addresses) trade
        (Some Sample.ETH) (Some dai) = None
      <-> ~ selectionMatches (addresses := Sample.addresses) trade
            (Some Sample.ETH) (Some dai)).
Proof.
  intros trade dai.
  apply (clearStaleTrades_keeps_matching_trade (addresses := Sample.addresses));
    reflexivity.
Defined.

Example clearStaleTrades_samples :
  let trade := Sample.ethForDai EXACT_INPUT 0.5%float None in
  clearStaleTrades (addresses := Sample.addresses) trade
    (Some Sample.ETH) (Some Sample.DAI) = Some trade
  /\ clearStaleTrades (addresses := Sample.addresses) trade
       (Some Sample.DAI) (Some Sample.ETH) = None
  /\ clearStaleTrades (addresses := Sample.addresses) trade
       None (Some Sample.DAI) = None.
Proof.
  repeat split.
Qed.

End StaleFacts.

(** ** Accepting a new trade *)

Module AcceptFacts.

Import SDK App Utils.

Lemma strict_eq_spec (a b : option string) :
  JS.strict_eq a b = true <-> a = b.
Proof.
  destruct a as [x | ], b as [y | ]; cbn; split; try congruence.
  - intros H. apply String.eqb_eq in H. congruence.
  - intros [= ->]. apply String.eqb_refl.
Qed.

(** The calldata a trade carries: that of the method parameters of its
    quote, absent as soon as the trade, its quote or the method parameters
    are. *)
Lemma quoteCalldata_cases (trade : option Trade) :
  match trade with
  | None => quoteCalldata trade = None
  | Some t =>
      match quote t with
      | None => quoteCalldata trade = None
      | Some q =>
          match methodParameters q with
          | None => quoteCalldata trade = None
          | Some p => quoteCalldata trade = Some (calldata p)
          end
      end
  end.
Proof.
  destruct trade as [t | ]; [ | reflexivity]. unfold quoteCalldata; cbn.
  destruct (quote t) as [q | ]; [ | reflexivity]. cbn.
  destruct (methodParameters q); reflexivity.
Qed.

(** The optional chain of the code reaches the call data of the trade. *)
Lemma quoteCalldata_calldataOf (trade : option Trade) :
  quoteCalldata trade = Spec.calldataOf trade.
Proof.
  destruct trade as [[type input output price slippage [[[[data value] | ]] | ]] | ];
    reflexivity.
Qed.

(** C7: [requireAcceptNewTrade] answers [true] exactly when the call data
    of the two trades' quotes differ, and [false] exactly when they are the
    same, which includes the case where neither trade carries call data;
    two trades that both carry call data are told apart by those strings
    alone. *)
Theorem requireAcceptNewTrade_iff_calldata_differs
  (oldTrade newTrade : option Trade) :
  (requireAcceptNewTrade oldTrade newTrade = true
   <-> Spec.calldataOf oldTrade <> Spec.calldataOf newTrade)
  /\ (requireAcceptNewTrade oldTrade newTrade = false
      <-> Spec.calldataOf oldTrade = Spec.calldataOf newTrade)
  /\ (Spec.calldataOf oldTrade = None -> Spec.calldataOf newTrade = None ->
      requireAcceptNewTrade oldTrade newTrade = false)
  /\ (forall old new, Spec.calldataOf oldTrade = Some old ->
      Spec.calldataOf newTrade = Some new ->
      (requireAcceptNewTrade oldTrade newTrade = true <-> old <> new)).
Proof.
  unfold requireAcceptNewTrade. rewrite !quoteCalldata_calldataOf.
  destruct (JS.strict_eq _ _) eqn:E; cbn [negb].
  - apply strict_eq_spec in E. repeat split; try congruence.
  - assert (Spec.calldataOf oldTrade <> Spec.calldataOf newTrade) as N.
    { intros H. apply strict_eq_spec in H. congruence. }
    repeat split; try congruence.
Qed.

(** Two quotes of one trade whose call data differ in the case of a
    letter. *)
Lemma requireAcceptNewTrade_iff_calldata_differs_witness :
  let quoted data := Some (Sample.ethForDai EXACT_INPUT 0.5%float data) in
  requireAcceptNewTrade (quoted (Some "0xabcd")) (quoted (Some "0xABCD")) = true
  <-> "0xabcd" <> "0xABCD".
Proof.
  intros quoted.
  apply (proj2 (proj2 (proj2 (requireAcceptNewTrade_iff_calldata_differs
                                (quoted (Some "0xabcd"))
                                (quoted (Some "0xABCD"))))));
    reflexivity.
Defined.

Example requireAcceptNewTrade_samples :
  let quoted data := Some (Sample.ethForDai EXACT_INPUT 0.5%float data) in
  requireAcceptNewTrade (quoted (Some "0xabcd")) (quoted (Some "0xabcd")) = false
  /\ requireAcceptNewTrade (quoted (Some "0xabcd")) (quoted (Some "0xABCD")) = true
  /\ requireAcceptNewTrade (quoted None) None = false
  /\ requireAcceptNewTrade None (quoted (Some "0xabcd")) = true.
Proof.
  repeat split.
Qed.

End AcceptFacts.

(** ** The displayed rate *)

Module RateFacts.

Import SDK App Utils.

(** C9: [getRateToDisplay] formats the execution price inverted when asked
    for the inverse rate and as it is otherwise, and the string it returns
    reads [1 X = Y Z], where [Y] is the formatted price, [X] the symbol of
    the base currency of the price that was formatted and [Z] the symbol
    of its quote currency. *)
Theorem getRateToDisplay_follows_formatted_price {fmt : Format}
  (trade : Trade) (showInverseRate : bool) :
  let price :=
    if showInverseRate then Price_invert (executionPrice trade)
    else executionPrice trade in
  getRateToDisplay trade showInverseRate
  = "1 " ++ JS.interpolate (symbol (baseCurrency price))
    ++ " = " ++ formatPrice price SwapPrice
    ++ " " ++ JS.interpolate (symbol (quoteCurrency price)).
Proof.
  unfold getRateToDisplay. destruct showInverseRate; cbn zeta.
  - unfold Price_invert; cbn [baseCurrency quoteCurrency]. reflexivity.
  - reflexivity.
Qed.

Example getRateToDisplay_samples :
  let trade := Sample.ethForDai EXACT_INPUT 0.5%float None in
  getRateToDisplay (fmt := Sample.format) trade false
  = "1 ETH = 2000000000000000000000/1000000000000000000 DAI"
  /\ getRateToDisplay (fmt := Sample.format) trade true
     = "1 DAI = 1000000000000000000/2000000000000000000000 ETH".
Proof.
  split; vm_compute; reflexivity.
Qed.

End RateFacts.

(** ** Choosing the router *)

Module RouterFacts.

Import SDK App Router Utils.

Section Selection.

Context {PermitSingle PermitOptions : Type}.
Context {sdk : Routers PermitSingle PermitOptions}.

(** C8: once the slippage tolerance converts, [getSwapMethodParameters]
    hands the trade to the universal router SDK if and only if the
    universal router is enabled or a permit2 signature is present; the
    options then carry, as input token permit, the signature and the permit
    message of that permit2 signature when there is one, and no permit
    otherwise.  In every other case it hands the trade to the legacy router
    SDK, with the raw permit as the input token permit exactly when
    [permitInfo] is provided.  Both get the converted tolerance and the
    address as recipient. *)
Theorem getSwapMethodParameters_router_selection
  (args : MethodParameterArgs PermitSingle PermitOptions)
  (tolerance : Percent) :
  slippageToleranceToPercent (slippageTolerance (trade args))
  = Normal tolerance ->
  let baseOptions := mkBaseOptions tolerance (address args) in
  let universal :=
    mkUniversalRouterSwapOptions baseOptions
      match permit2Signature args with
      | Some info =>
          Some {| permit2_signature := signature info;
                  permit2_message := permitMessage info |}
      | None => None
      end in
  let legacy := mkSwapOptions baseOptions (permitInfo args) in
  ((universalRouterEnabled args = true \/ permit2Signature args <> None) ->
   swapRouterCall args
   = Normal (UniversalSwapRouter_swapERC20CallParameters (trade args) universal)
   /\ getSwapMethodParameters args
      = swapERC20CallParameters (trade args) universal)
  /\ (~ (universalRouterEnabled args = true \/ permit2Signature args <> None) ->
      swapRouterCall args
      = Normal (SwapRouter_swapCallParameters (trade args) legacy)
      /\ getSwapMethodParameters args = swapCallParameters (trade args) legacy).
Proof.
  intros Htol baseOptions universal legacy.
  unfold getSwapMethodParameters, swapRouterCall. rewrite Htol.
  subst universal legacy baseOptions.
  destruct (universalRouterEnabled args), (permit2Signature args) as [sig | ],
    (permitInfo args) as [permit | ];
    cbn [orb perform]; split; intros H; try (split; reflexivity);
    try (destruct H as [H | H]; congruence);
    try (exfalso; apply H; auto; right; discriminate).
Qed.

End Selection.

(** A permit2 signature sends the swap to the universal router although
    the flag is off. *)
Lemma getSwapMethodParameters_router_selection_witness :
  let args :=
    mkMethodParameterArgs
      (Some (mkPermitSignatureInfo "0x1b" "permit-single")) (Some "permit")
      (Sample.ethForDai EXACT_INPUT 0.5%float None) "0xrecipient" false in
  let baseOptions := mkBaseOptions (mkFraction 50 10000) (address args) in
  let universal :=
    mkUniversalRouterSwapOptions baseOptions
      (Some {| permit2_signature := "0x1b";
               permit2_message := "permit-single" |}) in
  let legacy := mkSwapOptions baseOptions (permitInfo args) in
  ((universalRouterEnabled args = true \/ permit2Signature args <> None) ->
   swapRouterCall args
   = Normal (UniversalSwapRouter_swapERC20CallParameters (trade args) universal)
   /\ getSwapMethodParameters (sdk := Sample.routers) args
      = swapERC20CallParameters (Routers := Sample.routers)
          (trade args) universal)
  /\ (~ (universalRouterEnabled args = true \/ permit2Signature args <> None) ->
      swapRouterCall args
      = Normal (SwapRouter_swapCallParameters (trade args) legacy)
      /\ getSwapMethodParameters (sdk := Sample.routers) args
         = swapCallParameters (Routers := Sample.routers)
             (trade args) legacy).
Proof.
  intros args.
  apply (getSwapMethodParameters_router_selection (sdk := Sample.routers) args
           (mkFraction 50 10000)).
  vm_compute. reflexivity.
Defined.

Example getSwapMethodParameters_samples :
  let args permit2 permit flag :=
    mkMethodParameterArgs permit2 permit
      (Sample.ethForDai EXACT_INPUT 0.5%float None) "0xrecipient" flag in
  let signed := Some (mkPermitSignatureInfo "0x1b" "permit-single") in
  getSwapMethodParameters (sdk := Sample.routers) (args signed None false)
  = Normal (mkMethodParameters "0x3593564c" "0x00")
  /\ getSwapMethodParameters (sdk := Sample.routers) (args None None true)
     = Normal (mkMethodParameters "0x3593564c" "0x00")
  /\ getSwapMethodParameters (sdk := Sample.routers)
       (args None (Some "permit") false)
     = Normal (mkMethodParameters "0x5ae401dc" "0x00").
Proof.
  repeat split; vm_compute; reflexivity.
Qed.

End RouterFacts.

(** * Further properties *)

(** ** Wrap actions and their labels *)

Module WrapActionFacts.

Import SDK App Utils Spec.

Lemma getWrapType_Unwrap_inv {ids : CurrencyIdUtils} {tokens : Tokens}
  (i o : option Currency) :
  getWrapType i o = Unwrap -> wrapPair o i.
Proof.
  unfold getWrapType, wrapPair, isWrappedNative.
  destruct i as [i | ], o as [o | ]; try discriminate.
  destruct (Z.eqb_spec (chainId i) (chainId o)) as [E | ];
    cbn [negb]; [ | discriminate].
  destruct (isNative i && _); [discriminate | ].
  destruct (isNative o) eqn:Ho; cbn [andb]; [ | discriminate].
  destruct (areCurrencyIdsEqual (currencyId i) _) eqn:Hi; [ | discriminate].
  intros _. exists o, i. auto.
Qed.

Lemma getWrapType_reverse_pair {ids : CurrencyIdUtils} {tokens : Tokens}
  (i o : option Currency) :
  wrapPair o i -> getWrapType i o <> NotApplicable.
Proof.
  intros (n & w & -> & -> & E & Hn & Hw).
  unfold getWrapType, isWrappedNative in *.
  rewrite E, Z.eqb_refl, Hn, Hw. cbn [negb andb].
  destruct (isNative w && _); discriminate.
Qed.

(** A swap is treated as a wrap action exactly when its two currencies are
    a native asset and the wrapped native token of one chain, in either
    order. *)
Theorem isWrapAction_iff_wrap_pair {ids : CurrencyIdUtils} {tokens : Tokens}
  (inputCurrency outputCurrency : option Currency) :
  isWrapAction (getWrapType inputCurrency outputCurrency) = true
  <-> wrapPair inputCurrency outputCurrency
      \/ wrapPair outputCurrency inputCurrency.
Proof.
  split.
  - destruct (getWrapType inputCurrency outputCurrency) eqn:G;
      cbn; try discriminate; intros _.
    + left. now apply WrapFacts.getWrapType_Wrap.
    + right. now apply getWrapType_Unwrap_inv.
  - intros [H | H].
    + apply WrapFacts.getWrapType_Wrap in H. now rewrite H.
    + apply getWrapType_reverse_pair in H.
      destruct (getWrapType inputCurrency outputCurrency); cbn; congruence.
Qed.

(** Exchanging the input and the output currency turns a wrap into an
    unwrap and an unwrap into a wrap, and leaves every other pair not
    applicable. *)
Theorem getWrapType_exchanged {ids : CurrencyIdUtils} {tokens : Tokens}
  (native_not_wrapped :
     forall c : Currency, isNative c = true -> isWrappedNative c = false)
  (inputCurrency outputCurrency : option Currency) :
  getWrapType outputCurrency inputCurrency
  = mirror (getWrapType inputCurrency outputCurrency).
Proof.
  destruct (getWrapType inputCurrency outputCurrency) eqn:G1; cbn [mirror].
  - destruct (getWrapType outputCurrency inputCurrency) eqn:G2;
      [reflexivity | | ].
    + apply WrapFacts.getWrapType_Wrap in G2.
      apply (WrapFacts.getWrapType_Unwrap native_not_wrapped) in G2.
      congruence.
    + apply (WrapFacts.getWrapType_Unwrap native_not_wrapped) in G2.
      apply WrapFacts.getWrapType_Wrap in G2. congruence.
  - apply (WrapFacts.getWrapType_Unwrap native_not_wrapped).
    now apply WrapFacts.getWrapType_Wrap.
  - apply WrapFacts.getWrapType_Wrap.
    now apply (WrapFacts.getWrapType_Unwrap native_not_wrapped).
Qed.

Lemma getWrapType_exchanged_witness :
  getWrapType (ids := Sample.ids) (tokens := Sample.tokens)
    (Some Sample.WETH) (Some Sample.ETH)
  = mirror (getWrapType (ids := Sample.ids) (tokens := Sample.tokens)
              (Some Sample.ETH) (Some Sample.WETH)).
Proof.
  exact (getWrapType_exchanged (ids := Sample.ids) (tokens := Sample.tokens)
           WrapFacts.sample_native_not_wrapped
           (Some Sample.ETH) (Some Sample.WETH)).
Defined.


End WrapActionFacts.

(** ** More on gas fees *)

Module GasFeeAlgebra.

Import Utils Spec.

Lemma truthy_cases (g : option string) :
  JS.truthy g = true \/ g = None \/ g = Some "".
Proof.
  destruct g as [s | ]; [ | auto]. cbn.
  destruct (String.eqb_spec s ""); subst; auto.
Qed.

(** What [sumGasFees] does once both fees are truthy. *)
Lemma sumGasFees_both_truthy (a b : option string) :
  JS.truthy a = true -> JS.truthy b = true ->
  sumGasFees a b
  = (x <- Ethers.BigNumber_from a ;;
     y <- Ethers.BigNumber_from b ;;
     Normal (Some (JSBI.toString (x + y)))).
Proof.
  intros Ha Hb. unfold sumGasFees, Ethers.BigNumber_add. rewrite Ha, Hb.
  cbn [negb orb]. destruct (Ethers.BigNumber_from a); [ | reflexivity].
  destruct (Ethers.BigNumber_from b); reflexivity.
Qed.

(** What [sumGasFees] does when a fee is falsy. *)
Lemma sumGasFees_one_falsy (a b : option string) :
  JS.truthy a = false \/ JS.truthy b = false ->
  sumGasFees a b = Normal (JS.or_else a b).
Proof.
  intros H. unfold sumGasFees.
  destruct H as [-> | ->]; cbn [negb orb]; [reflexivity | ].
  now rewrite Bool.orb_true_r.
Qed.

(** [sumGasFees] throws only when both fees are non-empty strings: a fee
    given alone, or beside an empty string, is returned as it is without
    being read, whatever it holds.  With two non-empty fees it does throw
    as soon as one is a string [BigNumber.from] refuses. *)
Theorem sumGasFees_checks_two_fees_only (gasFee1 gasFee2 : option string) :
  (sumGasFees gasFee1 gasFee2 = Throw ->
   JS.truthy gasFee1 = true /\ JS.truthy gasFee2 = true)
  /\ (JS.truthy gasFee1 = true -> JS.truthy gasFee2 = false ->
      sumGasFees gasFee1 gasFee2 = Normal gasFee1
      /\ sumGasFees gasFee2 gasFee1 = Normal gasFee1)
  /\ (JS.truthy gasFee1 = true -> JS.truthy gasFee2 = true ->
      Ethers.BigNumber_from gasFee1 = Throw
      \/ Ethers.BigNumber_from gasFee2 = Throw ->
      sumGasFees gasFee1 gasFee2 = Throw).
Proof.
  split; [ | split].
  - destruct (JS.truthy gasFee1) eqn:H1, (JS.truthy gasFee2) eqn:H2;
      try (rewrite sumGasFees_one_falsy by auto; discriminate).
    auto.
  - intros H1 H2. rewrite !sumGasFees_one_falsy by auto.
    unfold JS.or_else. now rewrite H1, H2.
  - intros H1 H2 H. rewrite (sumGasFees_both_truthy _ _ H1 H2).
    destruct H as [-> | ->]; [reflexivity | ].
    destruct (Ethers.BigNumber_from gasFee1); reflexivity.
Qed.

(** A fee that is no number at all comes back unread beside an absent
    one, and makes the sum throw beside a real one. *)
Lemma sumGasFees_checks_two_fees_only_witness :
  (sumGasFees (Some "abc") None = Normal (Some "abc")
   /\ sumGasFees None (Some "abc") = Normal (Some "abc"))
  /\ sumGasFees (Some "abc") (Some "21000") = Throw.
Proof.
  split.
  - apply (proj1 (proj2 (sumGasFees_checks_two_fees_only (Some "abc") None)));
      reflexivity.
  - apply (proj2 (proj2 (sumGasFees_checks_two_fees_only
                           (Some "abc") (Some "21000"))));
      try reflexivity.
    left. reflexivity.
Defined.

(** The order of the two fees matters in one case only: when both are
    falsy and differ, that is for [undefined] and the empty string, where
    the second one is returned. *)
Theorem sumGasFees_commutes_iff (gasFee1 gasFee2 : option string) :
  sumGasFees gasFee1 gasFee2 = sumGasFees gasFee2 gasFee1
  <-> ~ (JS.truthy gasFee1 = false /\ JS.truthy gasFee2 = false
         /\ gasFee1 <> gasFee2).
Proof.
  destruct (JS.truthy gasFee1) eqn:H1, (JS.truthy gasFee2) eqn:H2.
  - rewrite (sumGasFees_both_truthy _ _ H1 H2),
      (sumGasFees_both_truthy _ _ H2 H1).
    split; [intros _ (? & _); discriminate | intros _].
    destruct (Ethers.BigNumber_from gasFee1),
      (Ethers.BigNumber_from gasFee2); try reflexivity.
    now rewrite Z.add_comm.
  - rewrite !sumGasFees_one_falsy by auto. unfold JS.or_else.
    rewrite H1, H2. split; [intros _ (? & _); discriminate | reflexivity].
  - rewrite !sumGasFees_one_falsy by auto. unfold JS.or_else.
    rewrite H1, H2. split; [intros _ (_ & ? & _); discriminate | reflexivity].
  - rewrite !sumGasFees_one_falsy by auto. unfold JS.or_else.
    rewrite H1, H2. split.
    + intros [= E] (_ & _ & N). congruence.
    + intros N. f_equal.
      destruct gasFee1 as [a | ], gasFee2 as [b | ]; try reflexivity;
        try (exfalso; apply N; repeat split; discriminate).
      cbn in H1, H2.
      destruct (String.eqb_spec a ""), (String.eqb_spec b "");
        try discriminate. congruence.
Qed.

(** The sum of two fees that are each absent or a decimal string is again
    one, and it is the plain sum of what is present. *)
Lemma sumGasFees_fees (a b : option string) :
  isFee a = true -> isFee b = true ->
  exists r,
    sumGasFees a b = Normal r /\ isFee r = true
    /\ r = match a, b with
           | Some x, Some y =>
               match JSBI.ofString x, JSBI.ofString y with
               | Some m, Some n => Some (JSBI.toString (m + n))
               | _, _ => None
               end
           | Some x, None => Some x
           | None, _ => b
           end.
Proof.
  unfold isFee. intros Ha Hb.
  destruct a as [x | ], b as [y | ].
  - destruct (JSBI.ofString x) as [m | ] eqn:Ex; [ | discriminate].
    destruct (JSBI.ofString y) as [n | ] eqn:Ey; [ | discriminate].
    exists (Some (JSBI.toString (m + n))).
    rewrite sumGasFees_both_truthy
      by (eapply GasFeeFacts.decimal_truthy; eassumption).
    rewrite (GasFeeFacts.BigNumber_from_decimal _ _ Ex),
      (GasFeeFacts.BigNumber_from_decimal _ _ Ey).
    now rewrite JSBIFacts.ofString_toString.
  - destruct (JSBI.ofString x) as [m | ] eqn:Ex; [ | discriminate].
    exists (Some x). rewrite sumGasFees_one_falsy by auto.
    unfold JS.or_else. rewrite (GasFeeFacts.decimal_truthy _ _ Ex).
    now rewrite Ex.
  - exists (Some y). rewrite sumGasFees_one_falsy by auto.
    split; [reflexivity | split; [exact Hb | reflexivity]].
  - exists None. rewrite sumGasFees_one_falsy by auto. auto.
Qed.

(** Adding up three fees, each absent or a decimal string, gives the same
    result in either grouping, and never throws. *)
Theorem sumGasFees_associative (gasFee1 gasFee2 gasFee3 : option string) :
  isFee gasFee1 = true -> isFee gasFee2 = true -> isFee gasFee3 = true ->
  exists total,
    (left <- sumGasFees gasFee1 gasFee2 ;; sumGasFees left gasFee3)
    = Normal total
    /\ (right <- sumGasFees gasFee2 gasFee3 ;; sumGasFees gasFee1 right)
       = Normal total
    /\ isFee total = true.
Proof.
  intros H1 H2 H3.
  destruct (sumGasFees_fees _ _ H1 H2) as (l & El & Hl & Vl).
  destruct (sumGasFees_fees _ _ H2 H3) as (r & Er & Hr & Vr).
  destruct (sumGasFees_fees _ _ Hl H3) as (t & Et & Ht & Vt).
  destruct (sumGasFees_fees _ _ H1 Hr) as (t' & Et' & Ht' & Vt').
  exists t. rewrite El, Er, Et, Et'.
  split; [reflexivity | split; [ | exact Ht]]. f_equal.
  subst t t'. unfold isFee in H1, H2, H3.
  destruct gasFee1 as [x | ], gasFee2 as [y | ], gasFee3 as [z | ];
    subst l r;
    repeat match goal with
           | H : match JSBI.ofString ?s with _ => _ end = true |- _ =>
               let E := fresh "E" in
               destruct (JSBI.ofString s) eqn:E; [clear H | discriminate H]
           end;
    rewrite ?JSBIFacts.ofString_toString;
    repeat match goal with
           | E : JSBI.ofString _ = Some _ |- _ => rewrite E
           end;
    rewrite ?JSBIFacts.ofString_toString;
    try reflexivity.
  now rewrite Z.add_assoc.
Qed.

Lemma sumGasFees_associative_witness :
  exists total,
    (left <- sumGasFees (Some "007") None ;; sumGasFees left (Some "13"))
    = Normal total
    /\ (right <- sumGasFees None (Some "13") ;;
        sumGasFees (Some "007") right)
       = Normal total
    /\ isFee total = true.
Proof.
  apply (sumGasFees_associative (Some "007") None (Some "13")); reflexivity.
Defined.

End GasFeeAlgebra.

(** ** More on stale trades, new trades and rates *)

Module TradeCheckFacts.

Import SDK App Utils Spec.

(** Only the wrapped token of a selected currency is looked at: selecting
    a currency or the token it wraps to clears, or keeps, the same
    trades. *)
Lemma clearStaleTrades_sees_wrapped_tokens_only {addresses : Addresses}
  (trade : Trade) (currencyIn currencyOut : option Currency) :
  clearStaleTrades trade currencyIn currencyOut
  = clearStaleTrades trade
      (option_map (fun c => TokenCurrency (wrapped c)) currencyIn)
      (option_map (fun c => TokenCurrency (wrapped c)) currencyOut).
Proof.
  unfold clearStaleTrades.
  destruct currencyIn as [a | ], currencyOut as [b | ]; reflexivity.
Qed.

(** A trade is kept for the currencies it was quoted for, and for any
    currencies that wrap to the same tokens, provided the addresses are
    not empty and the address comparison finds each equal to itself. *)
Theorem clearStaleTrades_keeps_own_currencies {addresses : Addresses}
  (trade : Trade) (selectedIn selectedOut : Currency) :
  wrapped selectedIn = wrapped (currency (inputAmount trade)) ->
  wrapped selectedOut = wrapped (currency (outputAmount trade)) ->
  hasAddress (Some selectedIn) = true ->
  hasAddress (Some selectedOut) = true ->
  areAddressesEqual (Some (token_address (wrapped selectedIn)))
                    (Some (token_address (wrapped selectedIn))) = true ->
  areAddressesEqual (Some (token_address (wrapped selectedOut)))
                    (Some (token_address (wrapped selectedOut))) = true ->
  clearStaleTrades trade (Some selectedIn) (Some selectedOut) = Some trade.
Proof.
  intros Ein Eout Hin Hout Rin Rout. unfold clearStaleTrades.
  rewrite (StaleFacts.truthy_address _ Hin), (StaleFacts.truthy_address _ Hout).
  cbn [JS.chain andb]. rewrite <- Ein, <- Eout, Rin, Rout. reflexivity.
Qed.

(** Ether for dai, quoted for the native asset, is kept when wrapped ether
    is selected. *)
Lemma clearStaleTrades_keeps_own_currencies_witness :
  let trade := Sample.ethForDai EXACT_INPUT 0.5%float None in
  clearStaleTrades (addresses := Sample.addresses) trade
    (Some Sample.WETH) (Some Sample.DAI) = Some trade.
Proof.
  intros trade.
  apply (clearStaleTrades_keeps_own_currencies
           (addresses := Sample.addresses) trade Sample.WETH Sample.DAI);
    reflexivity.
Defined.

(** Keeping the old trade is an equivalence between trades: a trade never
    requires accepting itself, the answer does not depend on which trade is
    the old one, and two trades that each keep a third keep each other. *)
Theorem requireAcceptNewTrade_keep_is_equivalence :
  (forall t : option Trade, requireAcceptNewTrade t t = false)
  /\ (forall a b : option Trade,
         requireAcceptNewTrade a b = requireAcceptNewTrade b a)
  /\ (forall a b c : option Trade,
         requireAcceptNewTrade a b = false ->
         requireAcceptNewTrade b c = false ->
         requireAcceptNewTrade a c = false).
Proof.
  assert (K : forall a b : option Trade,
             requireAcceptNewTrade a b = false
             <-> quoteCalldata a = quoteCalldata b).
  { intros a b. unfold requireAcceptNewTrade.
    rewrite Bool.negb_false_iff. apply AcceptFacts.strict_eq_spec. }
  repeat split.
  - intros t. now apply K.
  - intros a b.
    destruct (requireAcceptNewTrade a b) eqn:E1,
      (requireAcceptNewTrade b a) eqn:E2; try reflexivity.
    + apply K in E2. symmetry in E2. apply K in E2. congruence.
    + apply K in E1. symmetry in E1. apply K in E1. congruence.
  - intros a b c Hab Hbc. apply K. apply K in Hab, Hbc. congruence.
Qed.

Lemma Price_invert_involutive (p : Price) : Price_invert (Price_invert p) = p.
Proof.
  destruct p as [base quote_ [n d]]. reflexivity.
Qed.

(** Asking for the inverse rate of a trade shows what the plain rate of
    the trade with its execution price inverted shows, and the other way
    round. *)
Theorem getRateToDisplay_inverse_is_inverted_price {fmt : Format}
  (trade : Trade) (showInverseRate : bool) :
  getRateToDisplay
    (withExecutionPrice trade (Price_invert (executionPrice trade)))
    showInverseRate
  = getRateToDisplay trade (negb showInverseRate).
Proof.
  unfold getRateToDisplay, withExecutionPrice. cbn [executionPrice].
  destruct showInverseRate; cbn [negb].
  - rewrite Price_invert_involutive. reflexivity.
  - reflexivity.
Qed.

End TradeCheckFacts.

(** ** More on the slippage tolerance and the routers *)

Module ToleranceFacts.

Import SDK App Router Utils Spec.

Lemma slippageToleranceToPercent_throws_iff (slippage : JS.Number) :
  slippageToleranceToPercent slippage = Throw
  <-> JS.Number_isFinite (PrimFloat.mul slippage 100%float) = false.
Proof.
  split.
  - intros H.
    destruct (JS.Number_isFinite _) eqn:F; [ | reflexivity].
    destruct (SlippageFacts.slippageToleranceToPercent_finite _ F) as (bp & E).
    congruence.
  - apply SlippageFacts.slippageToleranceToPercent_not_finite.
Qed.

(** The basis points of a product whose value is known. *)
Lemma slippageToleranceToPercent_value (slippage : JS.Number) (x : Q) :
  JS.Number_value (PrimFloat.mul slippage 100%float) = Some x ->
  slippageToleranceToPercent slippage
  = Normal (mkFraction (round_half_up x) 10000).
Proof.
  intros Hx. unfold slippageToleranceToPercent.
  now rewrite (RoundFacts.Math_round_round_half_up _ _ Hx).
Qed.

Lemma round_half_up_zero (x : Q) :
  (- (1 # 2) <= x)%Q -> (x < 1 # 2)%Q -> round_half_up x = 0.
Proof.
  intros Hlow Hhigh.
  apply (RoundFacts.nearest_half_up_unique x);
    [apply RoundFacts.round_half_up_nearest | ].
  unfold nearest_half_up. change (inject_Z 0) with 0%Q. split; lra.
Qed.

Lemma round_half_up_negative (x : Q) :
  (x < - (1 # 2))%Q -> round_half_up x < 0.
Proof.
  intros Hx. destruct (RoundFacts.round_half_up_nearest x) as [Hlow _].
  rewrite Zlt_Qlt. change (inject_Z 0) with 0%Q. lra.
Qed.

Section Routers.

Context {PermitSingle PermitOptions : Type}.

(** With a permit2 signature the flag and the raw permit play no part;
    with the flag alone the raw permit plays none; and the legacy router is
    only ever called without a permit2 signature, with the flag off. *)
Theorem swapRouterCall_ignores_what_it_does_not_pass :
  (forall (signed : PermitSignatureInfo PermitSingle)
          (permit permit' : option PermitOptions) (trade : Trade)
          (address : string) (flag flag' : bool),
      swapRouterCall
        (mkMethodParameterArgs (Some signed) permit trade address flag)
      = swapRouterCall
          (mkMethodParameterArgs (Some signed) permit' trade address flag'))
  /\ (forall (permit permit' : option PermitOptions) (trade : Trade)
             (address : string),
         swapRouterCall
           (mkMethodParameterArgs (PermitSingle := PermitSingle)
              None permit trade address true)
         = swapRouterCall
             (mkMethodParameterArgs None permit' trade address true))
  /\ (forall (args : MethodParameterArgs PermitSingle PermitOptions)
             (trade : Trade) (options : SwapOptions PermitOptions),
         swapRouterCall args = Normal (SwapRouter_swapCallParameters trade options) ->
         permit2Signature args = None
         /\ universalRouterEnabled args = false
         /\ legacy_inputTokenPermit options = permitInfo args).
Proof.
  repeat split.
  - intros signed permit permit' trade address flag flag'.
    unfold swapRouterCall; cbn.
    destruct (slippageToleranceToPercent _); [ | reflexivity].
    now rewrite !Bool.orb_true_r.
  - unfold swapRouterCall in H.
    destruct (slippageToleranceToPercent _); [ | discriminate].
    destruct (permit2Signature args); [ | reflexivity].
    rewrite Bool.orb_true_r in H. discriminate.
  - unfold swapRouterCall in H.
    destruct (slippageToleranceToPercent _); [ | discriminate].
    destruct (universalRouterEnabled args); [discriminate | reflexivity].
  - unfold swapRouterCall in H.
    destruct (slippageToleranceToPercent _); [ | discriminate].
    destruct (universalRouterEnabled args || _); [discriminate | ].
    destruct (permitInfo args); injection H as _ <-; reflexivity.
Qed.

(** No router is called for a slippage tolerance that does not convert:
    the function throws exactly when the product of the tolerance and one
    hundred is [NaN] or infinite, whatever the routers would answer. *)
Theorem getSwapMethodParameters_throws_before_routing
  (args : MethodParameterArgs PermitSingle PermitOptions) :
  (swapRouterCall args = Throw
   <-> JS.Number_isFinite
         (PrimFloat.mul (slippageTolerance (trade args)) 100%float) = false)
  /\ (swapRouterCall args = Throw ->
      forall sdk : Routers PermitSingle PermitOptions,
        getSwapMethodParameters args = Throw).
Proof.
  split.
  - rewrite <- slippageToleranceToPercent_throws_iff.
    unfold swapRouterCall.
    destruct (slippageToleranceToPercent _); split; try discriminate;
      try reflexivity.
    destruct (universalRouterEnabled args || _); discriminate.
  - intros H sdk. unfold getSwapMethodParameters. now rewrite H.
Qed.

(** The tolerance handed to the router is the one the transaction record
    was computed with: the record's minimum output, or maximum input, is
    the trade's bound under the very percent the router call carries. *)
Theorem router_and_transaction_info_share_tolerance {ids : CurrencyIdUtils}
  (args : MethodParameterArgs PermitSingle PermitOptions)
  (call : RouterCall PermitSingle PermitOptions)
  (info : SwapTransactionInfo) :
  swapRouterCall args = Normal call ->
  tradeToTransactionInfo (trade args) = Normal info ->
  match info with
  | ExactInputInfo r =>
      exists bound raw,
        minimumAmountOut (trade args) (callTolerance call) = Normal bound
        /\ quotient bound = Normal raw
        /\ minimumOutputCurrencyAmountRaw r = JSBI.toString raw
  | ExactOutputInfo r =>
      exists bound raw,
        maximumAmountIn (trade args) (callTolerance call) = Normal bound
        /\ quotient bound = Normal raw
        /\ maximumInputCurrencyAmountRaw r = JSBI.toString raw
  end.
Proof.
  intros Hcall Hinfo.
  destruct (TradeInfoFacts.tradeToTransactionInfo_inv _ _ Hinfo)
    as (tolerance & input & output & bound & raw & Htol & _ & _ & Eraw & Hcase).
  assert (callTolerance call = tolerance) as ->.
  { unfold swapRouterCall in Hcall. rewrite Htol in Hcall.
    destruct (universalRouterEnabled args || _).
    - destruct (permit2Signature args); injection Hcall as <-; reflexivity.
    - destruct (permitInfo args); injection Hcall as <-; reflexivity. }
  destruct Hcase as [(_ & Hbound & ->) | (_ & Hbound & ->)];
    exists bound, raw; auto.
Qed.

End Routers.

Lemma getSwapMethodParameters_throws_before_routing_witness :
  let args :=
    mkMethodParameterArgs (PermitSingle := string) None (Some "permit")
      (Sample.ethForDai EXACT_INPUT nan None) "0xrecipient" true in
  getSwapMethodParameters (sdk := Sample.routers) args = Throw.
Proof.
  intros args.
  apply (proj2 (getSwapMethodParameters_throws_before_routing args)).
  vm_compute. reflexivity.
Defined.

Lemma router_and_transaction_info_share_tolerance_witness :
  let args :=
    mkMethodParameterArgs (PermitSingle := string) None (Some "permit")
      (Sample.ethForDai EXACT_INPUT 0.5%float None) "0xrecipient" false in
  exists call info,
    swapRouterCall args = Normal call
    /\ tradeToTransactionInfo (ids := Sample.ids) (trade args) = Normal info
    /\ match info with
       | ExactInputInfo r =>
           exists bound raw,
             minimumAmountOut (trade args) (callTolerance call) = Normal bound
             /\ quotient bound = Normal raw
             /\ minimumOutputCurrencyAmountRaw r = JSBI.toString raw
       | ExactOutputInfo r =>
           exists bound raw,
             maximumAmountIn (trade args) (callTolerance call) = Normal bound
             /\ quotient bound = Normal raw
             /\ maximumInputCurrencyAmountRaw r = JSBI.toString raw
       end.
Proof.
  intros args.
  assert (Hcall : exists call, swapRouterCall args = Normal call)
    by (eexists; vm_compute; reflexivity).
  assert (Hinfo : exists info,
             tradeToTransactionInfo (ids := Sample.ids) (trade args)
             = Normal info)
    by (eexists; vm_compute; reflexivity).
  destruct Hcall as (call & Hcall). destruct Hinfo as (info & Hinfo).
  exists call, info. split; [exact Hcall | split; [exact Hinfo | ]].
  exact (router_and_transaction_info_share_tolerance (ids := Sample.ids)
           args call info Hcall Hinfo).
Defined.

(** A tolerance too small to reach half a basis point, negative ones
    included, counts as none: the record's minimum output, or maximum
    input, is the expected amount itself. *)
Theorem tradeToTransactionInfo_zero_tolerance {ids : CurrencyIdUtils}
  (trade : Trade) (info : SwapTransactionInfo) (x : Q) :
  JS.Number_value (PrimFloat.mul (slippageTolerance trade) 100%float)
  = Some x ->
  (- (1 # 2) <= x)%Q -> (x < 1 # 2)%Q ->
  tradeToTransactionInfo trade = Normal info ->
  match info with
  | ExactInputInfo r =>
      minimumOutputCurrencyAmountRaw r = expectedOutputCurrencyAmountRaw r
  | ExactOutputInfo r =>
      maximumInputCurrencyAmountRaw r = expectedInputCurrencyAmountRaw r
  end.
Proof.
  intros Hx Hlow Hhigh H.
  destruct (TradeInfoFacts.tradeToTransactionInfo_inv _ _ H)
    as (tolerance & input & output & bound & raw & Htol & Ei & Eo & Eraw & Hcase).
  rewrite (slippageToleranceToPercent_value _ _ Hx),
    (round_half_up_zero _ Hlow Hhigh) in Htol.
  apply TradeInfoFacts.Normal_inj in Htol. subst tolerance.
  destruct Hcase as [(Htype & Hbound & ->) | (Htype & Hbound & ->)];
    cbn; f_equal.
  - destruct (TradeInfoFacts.minimumAmountOut_exact_input _ _ _ Htype Hbound)
      as (q & Eq & _ & Eraw').
    assert (q = output) by congruence. subst q.
    rewrite Eraw in Eraw'. apply TradeInfoFacts.Normal_inj in Eraw'.
    rewrite Eraw', Z.add_0_r, Z.mul_comm. apply Z.quot_mul. lia.
  - destruct (TradeInfoFacts.maximumAmountIn_exact_output _ _ _ Htype Hbound)
      as (q & Eq & _ & Eraw').
    assert (q = input) by congruence. subst q.
    rewrite Eraw in Eraw'. apply TradeInfoFacts.Normal_inj in Eraw'.
    rewrite Eraw', Z.add_0_r, Z.mul_comm. apply Z.quot_mul. lia.
Qed.

(** A tolerance of minus 1/256 rounds to no basis point at all. *)
Lemma tradeToTransactionInfo_zero_tolerance_witness :
  let trade := Sample.ethForDai EXACT_INPUT (-0.00390625)%float None in
  exists info,
    tradeToTransactionInfo (ids := Sample.ids) trade = Normal info
    /\ match info with
       | ExactInputInfo r =>
           minimumOutputCurrencyAmountRaw r = expectedOutputCurrencyAmountRaw r
       | ExactOutputInfo r =>
           maximumInputCurrencyAmountRaw r = expectedInputCurrencyAmountRaw r
       end.
Proof.
  intros trade.
  assert (H : exists info,
             tradeToTransactionInfo (ids := Sample.ids) trade = Normal info)
    by (eexists; vm_compute; reflexivity).
  destruct H as (info & H). exists info. split; [exact H | ].
  apply (tradeToTransactionInfo_zero_tolerance (ids := Sample.ids) trade info
           (Z.neg 7036874417766400 # 18014398509481984)).
  - vm_compute. reflexivity.
  - vm_compute. discriminate.
  - vm_compute. reflexivity.
  - exact H.
Defined.

(** No record is made for a tolerance that does not convert, nor for one
    that rounds to a negative number of basis points, which the trade's
    bound refuses. *)
Theorem tradeToTransactionInfo_throws {ids : CurrencyIdUtils}
  (trade : Trade) :
  (JS.Number_isFinite
     (PrimFloat.mul (slippageTolerance trade) 100%float) = false ->
   tradeToTransactionInfo trade = Throw)
  /\ (forall x : Q,
         JS.Number_value (PrimFloat.mul (slippageTolerance trade) 100%float)
         = Some x ->
         (x < - (1 # 2))%Q ->
         tradeToTransactionInfo trade = Throw).
Proof.
  split.
  - intros F. unfold tradeToTransactionInfo.
    now rewrite (SlippageFacts.slippageToleranceToPercent_not_finite _ F).
  - intros x Hx Hneg. unfold tradeToTransactionInfo.
    rewrite (slippageToleranceToPercent_value _ _ Hx).
    pose proof (round_half_up_negative _ Hneg) as Hbp.
    assert (L : Fraction_lessThan (mkFraction (round_half_up x) 10000)
                  (Fraction_of 0) = true).
    { unfold Fraction_lessThan. cbn [numerator denominator Fraction_of].
      apply Z.ltb_lt. lia. }
    unfold minimumAmountOut, maximumAmountIn. rewrite L.
    destruct (TradeType_eqb _ _);
      destruct (quotient (inputAmount trade));
      destruct (quotient (outputAmount trade)); reflexivity.
Qed.

Lemma tradeToTransactionInfo_throws_witness :
  tradeToTransactionInfo (ids := Sample.ids)
    (Sample.ethForDai EXACT_OUTPUT (-0.5)%float None) = Throw.
Proof.
  apply (proj2 (tradeToTransactionInfo_throws (ids := Sample.ids)
                  (Sample.ethForDai EXACT_OUTPUT (-0.5)%float None))
           (Z.neg 7036874417766400 # 140737488355328)).
  - vm_compute. reflexivity.
  - vm_compute. reflexivity.
Defined.

End ToleranceFacts.

(** ** Query strings *)

Module QueryFacts.

Import App Utils Spec.

Lemma allChars_app (test : ascii -> bool) (a b : string) :
  allChars test (a ++ b) = allChars test a && allChars test b.
Proof.
  induction a as [ | c a IH]; cbn; [reflexivity | ].
  now rewrite IH, Bool.andb_assoc.
Qed.

Lemma allChars_impl (test test' : ascii -> bool) (s : string) :
  (forall c, test c = true -> test' c = true) ->
  allChars test s = true -> allChars test' s = true.
Proof.
  intros Himpl. induction s as [ | c s IH]; cbn; [reflexivity | ].
  intros H. apply Bool.andb_true_iff in H as [Hc Hs].
  now rewrite (Himpl _ Hc), IH.
Qed.

(** An escape is a percent sign and two upper-case hexadecimal digits, and
    they spell the octet. *)
Lemma percentEncode_spec (c : ascii) :
  allChars encodedChar (JS.percentEncode c) = true
  /\ hexValue (JS.hexDigitUpper (N_of_ascii c / 16)) = Some (N_of_ascii c / 16)%N
  /\ hexValue (JS.hexDigitUpper (N_of_ascii c mod 16))
     = Some (N_of_ascii c mod 16)%N
  /\ ascii_of_N (16 * (N_of_ascii c / 16) + N_of_ascii c mod 16) = c.
Proof.
  destruct c as [[] [] [] [] [] [] [] []]; vm_compute; repeat split.
Qed.

Lemma unreserved_not_percent (c : ascii) :
  JS.unreserved c = true -> Ascii.eqb c "%" = false.
Proof.
  destruct (Ascii.eqb_spec c "%") as [-> | ]; [discriminate | reflexivity].
Qed.

Lemma encodeURIComponent_chars (s : string) :
  allChars encodedChar (JS.encodeURIComponent s) = true.
Proof.
  induction s as [ | c s IH]; cbn; [reflexivity | ].
  rewrite allChars_app, IH, Bool.andb_true_r.
  destruct (JS.unreserved c) eqn:U.
  - cbn. unfold encodedChar. now rewrite U.
  - apply percentEncode_spec.
Qed.

Lemma decode_escape (high low : ascii) (rest : string) :
  decodeURIComponent (String "%" (String high (String low rest)))
  = match hexValue high, hexValue low, decodeURIComponent rest with
    | Some h, Some l, Some decoded =>
        Some (String (ascii_of_N (16 * h + l)) decoded)
    | _, _, _ => None
    end.
Proof.
  reflexivity.
Qed.

Lemma decode_plain (c : ascii) (rest : string) :
  Ascii.eqb c "%" = false ->
  decodeURIComponent (String c rest)
  = option_map (String c) (decodeURIComponent rest).
Proof.
  intros H. cbn [decodeURIComponent]. now rewrite H.
Qed.

Lemma decode_encode (s : string) :
  decodeURIComponent (JS.encodeURIComponent s) = Some s.
Proof.
  induction s as [ | c s IH]; [reflexivity | ].
  cbn [JS.encodeURIComponent]. destruct (JS.unreserved c) eqn:U.
  - cbn [append]. now rewrite (decode_plain _ _ (unreserved_not_percent _ U)), IH.
  - destruct (percentEncode_spec c) as (_ & Hh & Hl & Hc).
    unfold JS.percentEncode. cbn [append].
    now rewrite decode_escape, Hh, Hl, IH, Hc.
Qed.

(** The loop of [serializeQueryParams] builds one entry per parameter. *)
Lemma push_loop {numbers : NumberFormat} (params : list (string * QueryValue))
  (done : list string) :
  fold_left
    (fun queryString entry =>
       let '(param, value) := entry in
       app queryString
         [JS.encodeURIComponent param ++ "="
          ++ JS.encodeURIComponent (queryValueToString value)])
    params done
  = app done (map entryOf params).
Proof.
  revert done. induction params as [ | [param value] params IH]; intros done.
  - cbn. now rewrite app_nil_r.
  - cbn [fold_left map]. rewrite IH, <- app_assoc. reflexivity.
Qed.

Lemma serializeQueryParams_entries {numbers : NumberFormat}
  (params : list (string * QueryValue)) :
  serializeQueryParams params = JS.join "&" (map entryOf params).
Proof.
  unfold serializeQueryParams. now rewrite push_loop.
Qed.

Lemma join_cons (separator first : string) (second : string)
  (rest : list string) :
  JS.join separator (first :: second :: rest)
  = first ++ separator ++ JS.join separator (second :: rest).
Proof.
  reflexivity.
Qed.

Lemma entryOf_chars {numbers : NumberFormat} (entry : string * QueryValue) :
  allChars (fun c => encodedChar c || Ascii.eqb c "=") (entryOf entry) = true.
Proof.
  assert (E : forall s,
             allChars (fun c => encodedChar c || Ascii.eqb c "=")
               (JS.encodeURIComponent s) = true).
  { intros s. apply (allChars_impl encodedChar).
    - intros c Hc. now rewrite Hc.
    - apply encodeURIComponent_chars. }
  unfold entryOf. rewrite !allChars_app, !E. reflexivity.
Qed.

(** Every character of a serialized query is an unreserved character, a
    percent sign, an equals sign or an ampersand, whatever the keys and
    values hold. *)
Theorem serializeQueryParams_chars {numbers : NumberFormat}
  (params : list (string * QueryValue)) :
  allChars queryChar (serializeQueryParams params) = true.
Proof.
  rewrite serializeQueryParams_entries.
  induction params as [ | entry params IH]; [reflexivity | ].
  assert (He : allChars queryChar (entryOf entry) = true).
  { apply (allChars_impl (fun c => encodedChar c || Ascii.eqb c "=")).
    - intros c. unfold queryChar, encodedChar.
      destruct (JS.unreserved c), (Ascii.eqb c "%"), (Ascii.eqb c "=");
        cbn; congruence.
    - apply entryOf_chars. }
  destruct params as [ | next params].
  - cbn. now rewrite He.
  - cbn [map] in *. rewrite join_cons, !allChars_app, He, IH. reflexivity.
Qed.

Lemma split_without (separator : ascii) (s : string) :
  allChars (fun c => negb (Ascii.eqb c separator)) s = true ->
  split separator s = [s].
Proof.
  induction s as [ | c s IH]; cbn; [reflexivity | ].
  intros H. apply Bool.andb_true_iff in H as [Hc Hs].
  apply Bool.negb_true_iff in Hc. now rewrite Hc, (IH Hs).
Qed.

Lemma split_at (separator : ascii) (a b : string) :
  allChars (fun c => negb (Ascii.eqb c separator)) a = true ->
  split separator (a ++ String separator b) = a :: split separator b.
Proof.
  induction a as [ | c a IH]; cbn.
  - intros _. now rewrite Ascii.eqb_refl.
  - intros H. apply Bool.andb_true_iff in H as [Hc Ha].
    apply Bool.negb_true_iff in Hc. now rewrite Hc, (IH Ha).
Qed.

(** An encoded component holds neither separator. *)
Lemma encodeURIComponent_without (separator : ascii) (s : string) :
  encodedChar separator = false ->
  allChars (fun c => negb (Ascii.eqb c separator)) (JS.encodeURIComponent s)
  = true.
Proof.
  intros Hsep. apply (allChars_impl encodedChar);
    [ | apply encodeURIComponent_chars].
  intros c Hc. destruct (Ascii.eqb_spec c separator) as [-> | ];
    [congruence | reflexivity].
Qed.

Lemma parsePair_entryOf {numbers : NumberFormat}
  (entry : string * QueryValue) :
  parsePair (entryOf entry)
  = Some (fst entry, queryValueToString (snd entry)).
Proof.
  unfold parsePair, entryOf.
  change ("=" ++ ?v)%string with (String "=" v).
  rewrite split_at by now apply encodeURIComponent_without.
  rewrite split_without by now apply encodeURIComponent_without.
  now rewrite !decode_encode.
Qed.

Lemma entryOf_without_ampersand {numbers : NumberFormat}
  (entry : string * QueryValue) :
  allChars (fun c => negb (Ascii.eqb c "&")) (entryOf entry) = true.
Proof.
  apply (allChars_impl (fun c => encodedChar c || Ascii.eqb c "="));
    [ | apply entryOf_chars].
  intros c Hc. destruct (Ascii.eqb_spec c "&") as [-> | ];
    [discriminate | reflexivity].
Qed.

Lemma split_join (pieces : list string) :
  pieces <> [] ->
  Forall (fun p => allChars (fun c => negb (Ascii.eqb c "&")) p = true)
    pieces ->
  split "&" (JS.join "&" pieces) = pieces.
Proof.
  induction pieces as [ | first [ | second rest] IH]; intros Hne Hall.
  - congruence.
  - cbn [JS.join String.concat]. apply split_without.
    now inversion Hall.
  - rewrite join_cons. change ("&" ++ ?v)%string with (String "&" v).
    inversion Hall as [ | ? ? Hfirst Hrest]; subst.
    rewrite split_at by exact Hfirst.
    now rewrite IH by (discriminate || exact Hrest).
Qed.

Lemma parsePairs_entries {numbers : NumberFormat}
  (params : list (string * QueryValue)) :
  parsePairs (map entryOf params)
  = Some (map (fun entry => (fst entry, queryValueToString (snd entry)))
            params).
Proof.
  induction params as [ | entry params IH]; [reflexivity | ].
  cbn [map parsePairs]. now rewrite parsePair_entryOf, IH.
Qed.

(** A serialized query reads back as the parameters it was made from:
    splitting it at the ampersands and each piece at its equals sign, and
    undoing the escapes, gives every key and the string of every value, in
    order.  No key or value can pass for a separator. *)
Theorem serializeQueryParams_round_trip {numbers : NumberFormat}
  (params : list (string * QueryValue)) :
  parseQuery (serializeQueryParams params)
  = Some (map (fun entry => (fst entry, queryValueToString (snd entry)))
            params).
Proof.
  rewrite serializeQueryParams_entries. unfold parseQuery.
  destruct params as [ | entry params]; [reflexivity | ].
  assert (Hne : String.eqb (JS.join "&" (map entryOf (entry :: params))) ""
                = false).
  { apply String.eqb_neq. cbn [map]. unfold entryOf at 1.
    destruct (JS.encodeURIComponent (fst entry)), (map entryOf params);
      discriminate. }
  rewrite Hne, split_join.
  - apply parsePairs_entries.
  - discriminate.
  - apply Forall_forall. intros p Hp. apply in_map_iff in Hp as (e & <- & _).
    apply entryOf_without_ampersand.
Qed.

(** Two lists of string parameters that serialize to one query are the
    same list. *)
Theorem serializeQueryParams_injective {numbers : NumberFormat}
  (params params' : list (string * string)) :
  let strings := map (fun entry => (fst entry, QString (snd entry))) in
  serializeQueryParams (strings params) = serializeQueryParams (strings params')
  -> params = params'.
Proof.
  intros strings E. apply (f_equal parseQuery) in E.
  rewrite !serializeQueryParams_round_trip in E.
  unfold strings in E. rewrite !map_map in E. cbn in E.
  assert (I : forall l : list (string * string),
             map (fun x => (fst x, snd x)) l = l).
  { induction l as [ | [k v] l IH]; cbn; [reflexivity | now rewrite IH]. }
  rewrite !I in E. congruence.
Qed.

Lemma serializeQueryParams_injective_witness :
  [("a", "b&c=d"); ("", "%3D")] = [("a", "b&c=d"); ("", "%3D")].
Proof.
  apply (serializeQueryParams_injective (numbers := Sample.numbers)).
  reflexivity.
Defined.

End QueryFacts.

(** ** Hexadecimal strings *)

Module HexFacts.

Import Utils Spec.

Lemma hex_digit_lower (d : Z) :
  0 <= d < 16 -> Ethers.hex_digit (Ethers.hexDigitLower d) = Some d.
Proof.
  intros H.
  assert (E : d = Z.of_nat (Z.to_nat d)) by lia.
  assert (B : (Z.to_nat d < 16)%nat) by lia.
  rewrite E. clear E H. generalize dependent (Z.to_nat d). intros n B.
  do 16 (destruct n as [ | n]; [reflexivity | ]). lia.
Qed.

Lemma hex_value_app (acc : Z) (a b : string) :
  Ethers.hex_value acc (a ++ b)
  = match Ethers.hex_value acc a with
    | Some v => Ethers.hex_value v b
    | None => None
    end.
Proof.
  revert acc. induction a as [ | c a IH]; intros acc; cbn; [reflexivity | ].
  destruct (Ethers.hex_digit c); [apply IH | reflexivity].
Qed.

Lemma append_assoc (a b c : string) : ((a ++ b) ++ c = a ++ (b ++ c))%string.
Proof.
  induction a as [ | x a IH]; cbn; [reflexivity | now rewrite IH].
Qed.

Lemma hexDigits_acc (fuel : nat) (n : Z) (acc : string) :
  Ethers.hexDigits fuel n acc = Ethers.hexDigits fuel n "" ++ acc.
Proof.
  revert n acc. induction fuel as [ | fuel IH]; intros n acc; cbn;
    [reflexivity | ].
  destruct (n / 16 =? 0); [reflexivity | ].
  rewrite (IH _ (String _ acc)), (IH _ (String _ "")).
  now rewrite append_assoc.
Qed.

Lemma hexDigits_nonempty (fuel : nat) (n : Z) :
  Ethers.hexDigits (S fuel) n "" <> "".
Proof.
  cbn. destruct (n / 16 =? 0); [discriminate | ].
  rewrite hexDigits_acc. destruct (Ethers.hexDigits fuel _ ""); discriminate.
Qed.

Lemma hex_value_last (acc d : Z) :
  0 <= d < 16 ->
  Ethers.hex_value acc (String (Ethers.hexDigitLower d) "") = Some (16 * acc + d).
Proof.
  intros H. cbn [Ethers.hex_value]. now rewrite (hex_digit_lower _ H).
Qed.

(** The digits of a number read back as the number, given fuel for each of
    its bits. *)
Lemma hexDigits_value (fuel : nat) (n : Z) :
  0 <= n < 2 ^ Z.of_nat fuel -> (0 < fuel)%nat ->
  Ethers.hex_value 0 (Ethers.hexDigits fuel n "") = Some n.
Proof.
  revert n. induction fuel as [ | fuel IH]; intros n Hn Hf; [lia | ].
  assert (Hdiv : n = 16 * (n / 16) + n mod 16) by (apply Z.div_mod; lia).
  assert (Hmod : 0 <= n mod 16 < 16) by (apply Z.mod_pos_bound; lia).
  assert (Hq : 0 <= n / 16) by (apply Z.div_pos; lia).
  cbn [Ethers.hexDigits].
  destruct (Z.eqb_spec (n / 16) 0) as [E | N].
  - rewrite (hex_value_last _ _ Hmod). f_equal. lia.
  - rewrite hexDigits_acc, hex_value_app.
    assert (Hpow : 2 ^ Z.of_nat (S fuel) = 2 * 2 ^ Z.of_nat fuel).
    { rewrite Nat2Z.inj_succ. apply Z.pow_succ_r. lia. }
    assert (Hfuel : (0 < fuel)%nat).
    { destruct fuel; [ | lia]. cbn in Hn. lia. }
    rewrite IH; [ | | exact Hfuel].
    + rewrite (hex_value_last _ _ Hmod). f_equal. lia.
    + split; [exact Hq | ].
      apply Z.div_lt_upper_bound; lia.
Qed.

(** A hexadecimal string of a [BigNumber] reads back as its value. *)
Lemma ofHexString_toHexString (z : Z) :
  Ethers.ofHexString (Ethers.BigNumber_toHexString z) = Some z.
Proof.
  unfold Ethers.BigNumber_toHexString.
  set (fuel := Z.to_nat (Z.log2 (Z.abs z))).
  assert (Hvalue : Ethers.hex_value 0 (Ethers.hexDigits (S fuel) (Z.abs z) "")
                   = Some (Z.abs z)).
  { apply hexDigits_value; [ | lia]. split; [lia | ].
    destruct (Z.eq_dec (Z.abs z) 0) as [-> | N]; [cbn; lia | ].
    replace (Z.of_nat (S fuel)) with (Z.succ (Z.log2 (Z.abs z))).
    - apply Z.log2_spec. lia.
    - unfold fuel. pose proof (Z.log2_nonneg (Z.abs z)). lia. }
  pose proof (hexDigits_nonempty fuel (Z.abs z)) as Hne.
  destruct (Ethers.hexDigits (S fuel) (Z.abs z) "") as [ | c digits] eqn:D;
    [congruence | ].
  assert (Hmag : Ethers.hex_magnitude
                   ("0x" ++ (if Nat.even (String.length (String c digits))
                             then String c digits
                             else String "0" (String c digits)))
                 = Some (Z.abs z)).
  { destruct (Nat.even _); cbn [append Ethers.hex_magnitude Ascii.eqb
                                 Bool.eqb andb orb]; [exact Hvalue | ].
    cbn [Ethers.hex_value]. change (Ethers.hex_digit "0") with (Some 0).
    exact Hvalue. }
  destruct (Z.ltb_spec z 0).
  - change ("-0x" ++ ?s)%string with (String "-" ("0x" ++ s)).
    cbn [Ethers.ofHexString]. rewrite Ascii.eqb_refl, Hmag. cbn. f_equal. lia.
  - change ("0x" ++ ?s)%string with (String "0" (String "x" s)) in *.
    cbn [Ethers.ofHexString].
    change (Ascii.eqb "0" "-") with false. cbn iota.
    rewrite Hmag. f_equal. lia.
Qed.

Lemma writesInteger_from (value : Ethers.BigNumberish) (z : Z) :
  writesInteger value z -> Ethers.BigNumber_from_value value = Normal z.
Proof.
  destruct value as [s | n | z' | z' | octets]; cbn [writesInteger];
    cbn [Ethers.BigNumber_from_value].
  - intros H. now apply GasFeeFacts.BigNumber_from_decimal.
  - intros (x & -> & Hx & Hlow & Hhigh).
    assert (Hfloor : Qfloor x = z).
    { rewrite (Qfloor_comp _ _ Hx). apply Qfloor_Z. }
    rewrite Hfloor.
    assert (Heq : Qeq_bool (inject_Z z) x = true).
    { apply Qeq_bool_iff. now symmetry. }
    rewrite Heq. cbn [andb].
    destruct (Z.ltb_spec (- Ethers.MAX_SAFE) z); [ | lia].
    destruct (Z.ltb_spec z Ethers.MAX_SAFE); [reflexivity | lia].
  - now intros ->.
  - intros [].
  - intros [].
Qed.

(** [formatAsHexString] gives [undefined] for [undefined].  For a value
    that plainly writes an integer (a decimal-integer string, an integral
    number within the safe range, a big integer; zero included) it gives a
    hexadecimal string that reads back as that integer.  On the empty
    string and on a number with a fraction it throws. *)
Theorem formatAsHexString_of_plain_integer :
  formatAsHexString None = Normal None
  /\ (forall (value : Ethers.BigNumberish) (z : Z),
         writesInteger value z ->
         exists hex,
           formatAsHexString (Some value) = Normal (Some hex)
           /\ Ethers.BigNumber_from (Some hex) = Normal z)
  /\ formatAsHexString (Some (Ethers.OfNumber 0%float)) = Normal (Some "0x00")
  /\ formatAsHexString (Some (Ethers.OfString "")) = Throw
  /\ formatAsHexString (Some (Ethers.OfNumber 0.5%float)) = Throw.
Proof.
  repeat split.
  intros value z H. unfold formatAsHexString.
  rewrite (writesInteger_from _ _ H).
  eexists. split; [reflexivity | ].
  unfold Ethers.BigNumber_from. now rewrite ofHexString_toHexString.
Qed.

(** The gas limit of a plain transfer, given as a number. *)
Lemma formatAsHexString_of_plain_integer_witness :
  exists hex,
    formatAsHexString (Some (Ethers.OfNumber 21000%float))
    = Normal (Some hex)
    /\ Ethers.BigNumber_from (Some hex) = Normal 21000.
Proof.
  apply (proj1 (proj2 formatAsHexString_of_plain_integer)).
  cbn [writesInteger]. eexists. split; [vm_compute; reflexivity | ].
  split; [reflexivity | split; reflexivity].
Defined.

(** The sum of two decimal fees, formatted as a hexadecimal string, reads
    back as the exact sum. *)
Theorem formatAsHexString_of_sumGasFees (gasFee1 gasFee2 : string)
  (fee1 fee2 : Z) :
  JSBI.ofString gasFee1 = Some fee1 ->
  JSBI.ofString gasFee2 = Some fee2 ->
  exists total hex,
    sumGasFees (Some gasFee1) (Some gasFee2) = Normal (Some total)
    /\ formatAsHexString (Some (Ethers.OfString total)) = Normal (Some hex)
    /\ Ethers.BigNumber_from (Some hex) = Normal (fee1 + fee2).
Proof.
  intros H1 H2.
  exists (JSBI.toString (fee1 + fee2)),
    (Ethers.BigNumber_toHexString (fee1 + fee2)).
  split; [ | split].
  - rewrite GasFeeAlgebra.sumGasFees_both_truthy
      by (eapply GasFeeFacts.decimal_truthy; eassumption).
    now rewrite (GasFeeFacts.BigNumber_from_decimal _ _ H1),
      (GasFeeFacts.BigNumber_from_decimal _ _ H2).
  - unfold formatAsHexString. cbn [Ethers.BigNumber_from_value].
    now rewrite (GasFeeFacts.BigNumber_from_decimal _ _
                   (JSBIFacts.ofString_toString _)).
  - unfold Ethers.BigNumber_from. now rewrite ofHexString_toHexString.
Qed.

Lemma formatAsHexString_of_sumGasFees_witness :
  exists total hex,
    sumGasFees (Some "21000") (Some "9007199254740993") = Normal (Some total)
    /\ formatAsHexString (Some (Ethers.OfString total)) = Normal (Some hex)
    /\ Ethers.BigNumber_from (Some hex) = Normal (21000 + 9007199254740993).
Proof.
  apply (formatAsHexString_of_sumGasFees "21000" "9007199254740993");
    reflexivity.
Defined.

End HexFacts.

(** ** The initial state of the swap form *)

Module FormStateFacts.

Import App Utils.

(** No state is made for a missing or empty identifier, and for those
    only.  A state that is made has the input as its exact field, an empty
    amount and no output; its input holds the decoded address, and the
    decoded chain whenever there is one (the zero chain included), the main
    network otherwise. *)
Theorem prepareSwapFormState_seed {decoding : CurrencyIdDecoding}
  {chains : Chains} (inputCurrencyId : option CurrencyId) :
  (prepareSwapFormState inputCurrencyId = None
   <-> inputCurrencyId = None \/ inputCurrencyId = Some "")
  /\ (forall state,
         prepareSwapFormState inputCurrencyId = Some state ->
         exactCurrencyField state = INPUT
         /\ exactAmountToken state = ""
         /\ field_OUTPUT state = None
         /\ exists id asset,
             inputCurrencyId = Some id
             /\ field_INPUT state = Some asset
             /\ asset_address asset = currencyIdToAddress id
             /\ asset_type asset = Currency_asset
             /\ (forall chain, currencyIdToChain id = Some chain ->
                 asset_chainId asset = chain)
             /\ (currencyIdToChain id = None -> asset_chainId asset = Mainnet)).
Proof.
  unfold prepareSwapFormState.
  destruct inputCurrencyId as [id | ]; cbn [JS.truthy].
  - destruct (String.eqb_spec id "") as [-> | Hid]; cbn [negb]; split.
    + split; auto.
    + discriminate.
    + split; [discriminate | intros [H | [= H]]; congruence].
    + intros state [= <-]. cbn. repeat split.
      eexists id, _. repeat split.
      * intros chain ->. reflexivity.
      * intros ->. reflexivity.
  - split; [split; auto | discriminate].
Qed.

Example prepareSwapFormState_samples :
  prepareSwapFormState (decoding := Sample.decoding) (chains := Sample.chains)
    (Some "") = None
  /\ option_map field_INPUT
       (prepareSwapFormState (decoding := Sample.decoding)
          (chains := Sample.chains)
          (Some (currencyId (CurrencyIdUtils := Sample.ids) Sample.DAI)))
     = Some (Some (mkTradeableAsset Sample.DAI_ADDRESS 1 Currency_asset))
  /\ option_map field_INPUT
       (prepareSwapFormState (decoding := Sample.decoding)
          (chains := Sample.chains) (Some "0-0xabc"))
     = Some (Some (mkTradeableAsset "0xabc" 0 Currency_asset)).
Proof.
  repeat split.
Qed.

End FormStateFacts.
